(** * Blitzform: the diff-and-validation form engine

  A shallow embedding of the form engine ([useForm], two sibling versions
  kept in the repository) and of the field binding ([useField]), followed by
  the properties of the engine: submission, effective values, pruning of the
  diff, reset, touch policy, error visibility and dynamic disabling.

  The React state cells ([useState]) are passed explicitly as a [FormState];
  a handler is a function on that state.  Code that can throw lives in the
  [Completion] monad. *)

From stdpp Require Import gmap strings list fin_maps.

Open Scope string_scope.
Open Scope list_scope.

(* ===================================================================== *)
(** ** JavaScript values, objects and completions *)
(* ===================================================================== *)

Module Js.

(** The values that flow through a form: primitives, arrays, which are
    compared by reference by [===], and the members of [Object.prototype],
    which a read of a plain object can reach. *)
#[warnings="-register-all"]
Inductive JsVal : Type :=
| VUndefined
| VNull
| VBool (b : bool)
| VNum (n : Z)
| VNaN
| VStr (s : string)
| VArr (ref : nat) (items : list JsVal)
| VBuiltin (member : string).

(** [a === b] *)
Definition strict_eq (a b : JsVal) : bool :=
  match a, b with
  | VUndefined, VUndefined => true
  | VNull, VNull => true
  | VBool x, VBool y => Bool.eqb x y
  | VNum x, VNum y => Z.eqb x y
  | VStr x, VStr y => String.eqb x y
  | VArr r _, VArr r' _ => Nat.eqb r r'
  | VBuiltin m, VBuiltin m' => String.eqb m m'
  | _, _ => false
  end.

(** [a !== undefined] *)
Definition is_defined (a : JsVal) : bool :=
  match a with VUndefined => false | _ => true end.

(** [a ?? b]: [b] when [a] is [undefined] or [null] *)
Definition nullish (a b : JsVal) : JsVal :=
  match a with
  | VUndefined | VNull => b
  | _ => a
  end.

(** A plain object used as a record: own properties by name.  A property can
    be present and hold [undefined]. *)
Abbreviation JsObj := (gmap string JsVal).

(** The names that every plain object inherits from [Object.prototype].
    [__proto__] is read like the others.  An assignment [o["__proto__"] = v]
    sets the prototype and adds no property; the engine makes such an
    assignment only in a [reduce] over the fields of a schema, for a field of
    that name, and there the embedding stores a property as for any other
    field. *)
Definition Object_prototype : list string :=
  [ "constructor"; "hasOwnProperty"; "isPrototypeOf"; "propertyIsEnumerable";
    "toLocaleString"; "toString"; "valueOf"; "__proto__";
    "__defineGetter__"; "__defineSetter__"; "__lookupGetter__"; "__lookupSetter__" ].

(** What a read [o[k]] of a plain object finds: an own property, a member of
    [Object.prototype], or nothing. *)
Inductive Property (A : Type) : Type :=
| Own (a : A)
| Inherited (member : string)
| Absent.
Arguments Own {A} a.
Arguments Inherited {A} member.
Arguments Absent {A}.

Definition property {A} (o : gmap string A) (k : string) : Property A :=
  match o !! k with
  | Some a => Own a
  | None => if bool_decide (k ∈ Object_prototype) then Inherited k else Absent
  end.

(** [o[k]]: the own property, else the inherited member, else [undefined] *)
Definition get (o : JsObj) (k : string) : JsVal :=
  match property o k with
  | Own v => v
  | Inherited member => VBuiltin member
  | Absent => VUndefined
  end.

(** [Object.keys(o)] *)
Definition Object_keys {A} (o : gmap string A) : list string := (map_to_list o).*1.

Inductive JsException : Type :=
| ReferenceError (msg : string)
| TypeError (msg : string).

(** The outcome of running a piece of code: a value, or a thrown exception. *)
Inductive Completion (A : Type) : Type :=
| Normal (a : A)
| Throw (e : JsException).
Arguments Normal {A} a.
Arguments Throw {A} e.

#[global] Instance Completion_ret : MRet Completion := fun A a => Normal a.
#[global] Instance Completion_bind : MBind Completion := fun A B f m =>
  match m with
  | Normal a => f a
  | Throw e => Throw e
  end.

Definition returns {A} (m : Completion A) : bool :=
  match m with Normal _ => true | Throw _ => false end.

(** [l.reduce(f, acc)] with a callback that can throw *)
Fixpoint reduceM {A B} (f : B → A → Completion B) (l : list A) (acc : B)
  : Completion B :=
  match l with
  | [] => Normal acc
  | x :: l' => acc' ← f acc x; reduceM f l' acc'
  end.

(** A [const] of a block.  It exists from the start of the block but cannot
    be read before its declaration has been evaluated. *)
Inductive Binding (A : Type) : Type :=
| Uninitialized
| Initialized (a : A).
Arguments Uninitialized {A}.
Arguments Initialized {A} a.

Definition read {A} (x : string) (b : Binding A) : Completion A :=
  match b with
  | Initialized a => Normal a
  | Uninitialized =>
      Throw (ReferenceError ("Cannot access '" +:+ x +:+ "' before initialization"))
  end.

(** An argument handed to a change handler: a DOM change event (of which
    only [e.target.value] is read) or a bare value. *)
Inductive JsArg : Type :=
| ArgEvent (target_value : JsVal)
| ArgValue (v : JsVal).

End Js.

(* ===================================================================== *)
(** ** The validator interface (zod) *)
(* ===================================================================== *)

Module Zod.
Import Js.

Record ZodIssue : Type := { path : list string; issue_message : string }.

Record ZodError : Type := { errors : list ZodIssue; message : string }.

Inductive SafeParseReturnType (A : Type) : Type :=
| ParseSuccess (data : A)
| ParseFailure (error : ZodError).
Arguments ParseSuccess {A} data.
Arguments ParseFailure {A} error.

Definition success {A} (r : SafeParseReturnType A) : bool :=
  match r with ParseSuccess _ => true | ParseFailure _ => false end.

(** The schema of one field: [safeParse] and [isOptional()]. *)
Record ZodType : Type := {
  safeParse : JsVal → SafeParseReturnType JsVal;
  isOptional : bool
}.

(** An object schema: its [shape] and its own [safeParse] on a record. *)
Record ZodObject : Type := {
  shape : gmap string ZodType;
  safeParseObject : JsObj → SafeParseReturnType JsObj
}.


(** *** A small validator to run the engine on *)

Inductive UnknownKeys : Type := Strip | Strict | Passthrough.

Definition field_issues (r : JsObj) (kv : string * ZodType) : list ZodIssue :=
  match safeParse kv.2 (get r kv.1) with
  | ParseSuccess _ => []
  | ParseFailure e =>
      match errors e with
      | [] => [{| path := [kv.1]; issue_message := message e |}]
      | iss => (λ i, {| path := kv.1 :: path i; issue_message := issue_message i |}) <$> iss
      end
  end.

Definition field_data (r : JsObj) (k : string) (zt : ZodType) : option JsVal :=
  match safeParse zt (get r k) with
  | ParseSuccess v => Some v
  | ParseFailure _ => None
  end.

Definition unknown_keys (sh : gmap string ZodType) (r : JsObj) : list string :=
  filter (λ k, sh !! k = None) (Object_keys r).

(** [z.object(sh)], [.strict()] and [.passthrough()] *)
Definition z_object (sh : gmap string ZodType) (mode : UnknownKeys) : ZodObject :=
  {| shape := sh;
     safeParseObject := λ r,
       let issues :=
         mbind (field_issues r) (map_to_list sh) ++
         match mode with
         | Strict =>
             (λ k, {| path := []; issue_message := "Unrecognized key: " +:+ k |})
               <$> unknown_keys sh r
         | _ => []
         end in
       let parsed := map_imap (field_data r) sh in
       let extra :=
         match mode with
         | Passthrough => filter (λ kv, sh !! kv.1 = None) r
         | _ => ∅
         end in
       match issues with
       | [] => ParseSuccess (parsed ∪ extra)
       | i :: _ => ParseFailure {| errors := issues; message := issue_message i |}
       end |}.

(** [z.string().min(1, { message })] *)
Definition z_string_min1 (msg : string) : ZodType :=
  {| safeParse := λ v,
       match v with
       | VStr "" =>
           ParseFailure {| errors := [{| path := []; issue_message := msg |}];
                           message := msg |}
       | VStr s => ParseSuccess (VStr s)
       | _ =>
           ParseFailure {| errors := [{| path := []; issue_message := "Required" |}];
                           message := "Required" |}
       end;
     isOptional := false |}.

(** [t.nullable()] *)
Definition z_nullable (t : ZodType) : ZodType :=
  {| safeParse := λ v,
       match v with
       | VNull => ParseSuccess VNull
       | _ => safeParse t v
       end;
     isOptional := isOptional t |}.

End Zod.

(* ===================================================================== *)
(** ** The state of a form ([useState]) *)
(* ===================================================================== *)

Module React.
Import Js.

(** The two state cells of [useForm]. *)
Record FormState : Type := {
  diff : JsObj;
  touchedFields : gmap string bool
}.

(** The argument of a state setter: a new value, or an updater of the
    previous one. *)
Inductive SetStateAction (A : Type) : Type :=
| SetValue (a : A)
| SetUpdater (f : A → A).
Arguments SetValue {A} a.
Arguments SetUpdater {A} f.

Definition apply_action {A} (act : SetStateAction A) (prev : A) : A :=
  match act with
  | SetValue a => a
  | SetUpdater f => f prev
  end.

Definition setDiff (act : SetStateAction JsObj) (st : FormState) : FormState :=
  {| diff := apply_action act (diff st); touchedFields := touchedFields st |}.

Definition setTouchedFields (act : SetStateAction (gmap string bool))
    (st : FormState) : FormState :=
  {| diff := diff st; touchedFields := apply_action act (touchedFields st) |}.

End React.

(* ===================================================================== *)
(** ** The field binding ([useField]) *)
(* ===================================================================== *)

Module UseField.
Import Js Zod React.

Inductive ShowValidationOn : Type := ShowTouched | ShowAlways.
Inductive UntouchOn : Type := UntouchFocus | UntouchChange | UntouchNever.

#[global] Instance ShowValidationOn_eq_dec : EqDecision ShowValidationOn.
Proof. solve_decision. Defined.
#[global] Instance UntouchOn_eq_dec : EqDecision UntouchOn.
Proof. solve_decision. Defined.

(** [UseFieldOptions]: every option can be left out. *)
Record UseFieldOptions : Type := {
  options_disabled : option bool;
  options_disabledIf : option (JsObj → bool);
  options_showValidationOn : option ShowValidationOn;
  options_unTouchOn : option UntouchOn;
  options_parseValue : option (list JsArg → JsVal);
  options_isEqual : option (JsVal → JsVal → bool)
}.

(** [options = {}] *)
Definition no_options : UseFieldOptions :=
  {| options_disabled := None; options_disabledIf := None;
     options_showValidationOn := None; options_unTouchOn := None;
     options_parseValue := None; options_isEqual := None |}.

(** [UseFieldCtx]: what the form hands to its fields.  [getError] is a read of
    the form's error map, so besides an error or nothing it can find a member
    of [Object.prototype]; the one function [formatErrorMessage] is given by
    what it returns for an error and by what it does, as [formatNonError],
    when it is handed such a member and the field's name. *)
Record UseFieldCtx : Type := {
  schema : ZodObject;
  formValues : JsObj;
  isDirty : string → bool;
  isTouched : string → bool;
  getValue : string → JsVal;
  setTouched : string → bool → FormState → FormState;
  getError : string → Property ZodError;
  getUpstreamValue : string → JsVal;
  setDiff : SetStateAction JsObj → FormState → FormState;
  formatErrorMessage : ZodError → string → string;
  formatNonError : string → string → Completion string;
  defaultShowValidationOn : ShowValidationOn;
  defaultUntouchOn : UntouchOn
}.

Record FieldInputProps : Type := {
  input_value : JsVal;
  input_disabled : bool;
  input_required : bool;
  input_name : string;
  input_data_valid : bool;
  input_onChange : list JsArg → FormState → Completion FormState;
  input_onBlur : FormState → FormState;
  input_onFocus : FormState → FormState
}.

Record FieldProps : Type := {
  field_upstreamValue : JsVal;
  field_disabled : bool;
  field_touched : bool;
  field_dirty : bool;
  field_valid : bool;
  field_errorMessage : option string;
  field_inputProps : FieldInputProps
}.

Definition defaultIsEqual (a b : JsVal) : bool := strict_eq a b.

(** The options with their defaults. *)
Definition disabled (options : UseFieldOptions) : bool :=
  default false (options_disabled options).
Definition showValidationOn (ctx : UseFieldCtx) (options : UseFieldOptions) : ShowValidationOn :=
  default (defaultShowValidationOn ctx) (options_showValidationOn options).
Definition unTouchOn (ctx : UseFieldCtx) (options : UseFieldOptions) : UntouchOn :=
  default (defaultUntouchOn ctx) (options_unTouchOn options).
Definition isEqual (options : UseFieldOptions) : JsVal → JsVal → bool :=
  default defaultIsEqual (options_isEqual options).

Definition touched (ctx : UseFieldCtx) (name : string) : bool := isTouched ctx name.
Definition upstreamValue (ctx : UseFieldCtx) (name : string) : JsVal :=
  getUpstreamValue ctx name.

(** [parseValue ? parseValue(...args) : args[0].target.value] *)
Definition parsedValue (options : UseFieldOptions) (args : list JsArg) : Completion JsVal :=
  match options_parseValue options with
  | Some parseValue => Normal (parseValue args)
  | None =>
      match args with
      | ArgEvent v :: _ => Normal v
      | ArgValue VUndefined :: _ | [] =>
          Throw (TypeError "Cannot read properties of undefined (reading 'target')")
      | ArgValue VNull :: _ =>
          Throw (TypeError "Cannot read properties of null (reading 'target')")
      | ArgValue _ :: _ =>
          Throw (TypeError "Cannot read properties of undefined (reading 'value')")
      end
  end.

Definition onChange (ctx : UseFieldCtx) (name : string) (options : UseFieldOptions)
    (args : list JsArg) (st : FormState) : Completion FormState :=
  value ← parsedValue options args;
  let st :=
    if isEqual options value (upstreamValue ctx name)
    then setDiff ctx (SetUpdater (λ prev, <[name := VUndefined]> prev)) st
    else setDiff ctx (SetUpdater (λ prev, <[name := value]> prev)) st in
  let st :=
    if decide (unTouchOn ctx options = UntouchChange)
    then setTouched ctx name false st
    else st in
  Normal st.

Definition onFocus (ctx : UseFieldCtx) (name : string) (options : UseFieldOptions)
    (st : FormState) : FormState :=
  if decide (unTouchOn ctx options = UntouchFocus)
  then setTouched ctx name false st
  else st.

Definition onBlur (ctx : UseFieldCtx) (name : string) (st : FormState) : FormState :=
  setTouched ctx name true st.

Definition dirty (ctx : UseFieldCtx) (name : string) : bool := isDirty ctx name.
Definition error (ctx : UseFieldCtx) (name : string) : Property ZodError :=
  getError ctx name.

(** [!error] *)
Definition valid (ctx : UseFieldCtx) (name : string) : bool :=
  match error ctx name with Absent => true | _ => false end.

Definition errorMessage (ctx : UseFieldCtx) (name : string) (options : UseFieldOptions)
    : Completion (option string) :=
  match error ctx name with
  | Absent => Normal None
  | Own err =>
      if bool_decide (showValidationOn ctx options = ShowTouched) && negb (touched ctx name)
      then Normal None
      else Normal (Some (formatErrorMessage ctx err name))
  | Inherited member =>
      if bool_decide (showValidationOn ctx options = ShowTouched) && negb (touched ctx name)
      then Normal None
      else message ← formatNonError ctx member name; Normal (Some message)
  end.

(** [disabled ? true : (disabledIf?.(formValues) ?? false)] *)
Definition inputProps_disabled (ctx : UseFieldCtx) (options : UseFieldOptions) : bool :=
  if disabled options then true
  else match options_disabledIf options with
       | Some disabledIf => disabledIf (formValues ctx)
       | None => false
       end.

(** [inputProps]; [schema.shape[name].isOptional()] throws for a name that is
    not in the shape: [schema.shape[name]] is then [undefined], or a member of
    [Object.prototype], which has no [isOptional]. *)
Definition inputProps (ctx : UseFieldCtx) (name : string) (options : UseFieldOptions)
    : Completion FieldInputProps :=
  let value := getValue ctx name in
  let disabled' := inputProps_disabled ctx options in
  itemSchema ←
    match property (shape (schema ctx)) name with
    | Own t => Normal t
    | Inherited _ => Throw (TypeError "schema.shape[name].isOptional is not a function")
    | Absent => Throw (TypeError "Cannot read properties of undefined (reading 'isOptional')")
    end;
  Normal {| input_value := value;
            input_disabled := disabled';
            input_required := negb (isOptional itemSchema);
            input_name := name;
            input_data_valid := valid ctx name;
            input_onChange := onChange ctx name options;
            input_onBlur := onBlur ctx name;
            input_onFocus := onFocus ctx name options |}.

Definition useField (ctx : UseFieldCtx) (name : string) (options : UseFieldOptions)
    : Completion FieldProps :=
  errorMessage ← errorMessage ctx name options;
  props ← inputProps ctx name options;
  Normal {| field_inputProps := props;
            field_upstreamValue := upstreamValue ctx name;
            field_disabled := disabled options;
            field_touched := touched ctx name;
            field_dirty := dirty ctx name;
            field_valid := valid ctx name;
            field_errorMessage := errorMessage |}.

End UseField.

(* ===================================================================== *)
(** ** The form engine ([useForm]) *)
(* ===================================================================== *)

(** [UseFormConfig] and the default formatter, declared alike by both
    versions of [useForm].  A formatter is called with the error and the field
    name by the current version, with the error alone by its sibling. *)
Module FormConfig.
Import Js Zod React UseField.

Inductive InitTouched : Type :=
| InitAll (b : bool)
| InitPerField (m : gmap string bool).

Record UseFormConfig (Formatter : Type) : Type := {
  config_formatErrorMessage : option Formatter;
  config_isEqual : gmap string (JsVal → JsVal → bool);
  config_initTouched : option InitTouched;
  config_defaultShowValidationOn : option ShowValidationOn;
  config_defaultUntouchOn : option UntouchOn
}.

Arguments config_formatErrorMessage {Formatter} _.
Arguments config_isEqual {Formatter} _.
Arguments config_initTouched {Formatter} _.
Arguments config_defaultShowValidationOn {Formatter} _.
Arguments config_defaultUntouchOn {Formatter} _.

(** [config = {}] *)
Definition no_config {Formatter : Type} : UseFormConfig Formatter :=
  {| config_formatErrorMessage := None; config_isEqual := ∅;
     config_initTouched := None; config_defaultShowValidationOn := None;
     config_defaultUntouchOn := None |}.

(** [error.errors[0]?.message ?? error.message] *)
Definition defaultFormatErrorMessage (error : ZodError) : string :=
  match errors error with
  | i :: _ => issue_message i
  | [] => message error
  end.

(** The default formatter handed a member of [Object.prototype]: the member
    has no [errors], and [error.errors[0]] throws. *)
Definition defaultFormatNonError : Completion string :=
  Throw (TypeError "Cannot read properties of undefined (reading '0')").

(** [typeof config.initTouched === 'boolean' ? config.initTouched
     : (config.initTouched?.[key] ?? false)], as [isTouched] will read it: the
    per-field map is a plain object, and a member of [Object.prototype] found
    under [key] is truthy. *)
Definition initTouched_at {Formatter : Type} (config : UseFormConfig Formatter)
    (key : string) : bool :=
  match config_initTouched config with
  | Some (InitAll b) => b
  | Some (InitPerField m) =>
      match property m key with
      | Own b => b
      | Inherited _ => true
      | Absent => false
      end
  | None => false
  end.

End FormConfig.

(** *** The current version *)

Module UseForm.
Import Js Zod React UseField FormConfig.

(** A formatter supplied as [config.formatErrorMessage]: what it returns for
    an error and the field's name, and what it does when it is handed a member
    of [Object.prototype] in the error's place. *)
Record Formatter : Type := {
  format_error : ZodError → string → string;
  format_other : string → string → Completion string
}.

Abbreviation Config := (UseFormConfig Formatter).

Definition fieldKeys (schema : ZodObject) : list string := Object_keys (shape schema).

Definition defaultShowValidationOn (config : Config) : ShowValidationOn :=
  default ShowTouched (config_defaultShowValidationOn config).
Definition defaultUntouchOn (config : Config) : UntouchOn :=
  default UntouchFocus (config_defaultUntouchOn config).
Definition formatErrorMessage (config : Config) : ZodError → string → string :=
  match config_formatErrorMessage config with
  | Some formatter => format_error formatter
  | None => λ error _, defaultFormatErrorMessage error
  end.
Definition formatNonError (config : Config) : string → string → Completion string :=
  match config_formatErrorMessage config with
  | Some formatter => format_other formatter
  | None => λ _ _, defaultFormatNonError
  end.

Definition initTouched (schema : ZodObject) (config : Config) : gmap string bool :=
  foldl (λ acc key, <[key := initTouched_at config key]> acc) ∅ (fieldKeys schema).

(** The state of the first render: [useState({})], [useState(initTouched)]. *)
Definition initialState (schema : ZodObject) (config : Config) : FormState :=
  {| diff := ∅; touchedFields := initTouched schema config |}.

(** [!!touchedFields[fieldName]]: a member of [Object.prototype] is truthy *)
Definition isTouched (touchedFields : gmap string bool) (fieldName : string) : bool :=
  match property touchedFields fieldName with
  | Own touched => touched
  | Inherited _ => true
  | Absent => false
  end.

Definition setTouched (fieldName : string) (touched : bool) : FormState → FormState :=
  setTouchedFields (SetUpdater (λ prev, <[fieldName := touched]> prev)).

Definition isDiff (diff : JsObj) (fieldName : string) : bool :=
  is_defined (get diff fieldName).

Definition getUpstreamValue (upstreamData : JsObj) (fieldName : string) : JsVal :=
  get upstreamData fieldName.

(** [fieldErrors]: the callback of the [reduce] calls [getValue], a [const]
    of the same block. *)
Definition fieldErrors (schema : ZodObject) (getValue : Binding (string → JsVal))
    : Completion (gmap string ZodError) :=
  reduceM (λ acc key,
      itemSchema ←
        match shape schema !! key with
        | Some t => Normal t
        | None => Throw (TypeError "Cannot read properties of undefined (reading 'safeParse')")
        end;
      getValue ← read "getValue" getValue;
      match safeParse itemSchema (getValue key) with
      | ParseFailure error => Normal (<[key := error]> acc)
      | ParseSuccess _ => Normal acc
      end)
    (fieldKeys schema) ∅.

Definition formValues (schema : ZodObject) (diff upstreamData : JsObj) : JsObj :=
  foldl (λ acc key, <[key := nullish (get diff key) (getUpstreamValue upstreamData key)]> acc)
    ∅ (fieldKeys schema).

Definition getValue (formValues : JsObj) (fieldName : string) : JsVal :=
  get formValues fieldName.

Definition getError (fieldErrors : gmap string ZodError) (fieldName : string)
    : Property ZodError :=
  property fieldErrors fieldName.

Definition touchAll (schema : ZodObject) : FormState → FormState :=
  setTouchedFields (SetValue (foldl (λ acc key, <[key := true]> acc) ∅ (fieldKeys schema))).

Definition resetTouched (schema : ZodObject) (config : Config) : FormState → FormState :=
  setTouchedFields (SetValue (initTouched schema config)).

Definition ctx (schema : ZodObject) (upstreamData : JsObj) (config : Config)
    (st : FormState) (fieldErrors : gmap string ZodError) : UseFieldCtx :=
  let formValues := formValues schema (diff st) upstreamData in
  {| UseField.schema := schema;
     UseField.formValues := formValues;
     UseField.isDirty := isDiff (diff st);
     UseField.isTouched := isTouched (touchedFields st);
     UseField.getValue := getValue formValues;
     UseField.getError := getError fieldErrors;
     UseField.getUpstreamValue := getUpstreamValue upstreamData;
     UseField.setDiff := React.setDiff;
     UseField.setTouched := setTouched;
     UseField.formatErrorMessage := formatErrorMessage config;
     UseField.formatNonError := formatNonError config;
     UseField.defaultShowValidationOn := defaultShowValidationOn config;
     UseField.defaultUntouchOn := defaultUntouchOn config |}.

(** [handleSubmit(onSubmit, onError?)]: a callback acts on the host's world
    [W]; [onError] can be left out. *)
Definition handleSubmit {W : Type} (schema : ZodObject) (formValues : JsObj)
    (onSubmit : JsObj → W → W) (onError : option (ZodError → W → W)) (w : W) : W :=
  match safeParseObject schema formValues with
  | ParseSuccess data => onSubmit data w
  | ParseFailure error =>
      match onError with
      | Some onError => onError error w
      | None => w
      end
  end.

Definition reset : FormState → FormState := React.setDiff (SetValue ∅).

Definition formDirty (schema : ZodObject) (diff : JsObj) : bool :=
  bool_decide (0 < length (filter (λ key, isDiff diff key = true) (fieldKeys schema))).

Record UseFormReturn : Type := {
  return_ctx : UseFieldCtx;
  return_formProps_noValidate : bool;
  return_formDirty : bool;
  return_reset : FormState → FormState;
  return_handleSubmit :
    ∀ W : Type, (JsObj → W → W) → option (ZodError → W → W) → W → W;
  return_touchAll : FormState → FormState;
  return_resetTouched : FormState → FormState;
  return_useField : string → UseFieldOptions → Completion FieldProps
}.

(** One render of [useForm], in the order of its statements.  When
    [fieldErrors] is computed, [formValues] and [getValue] are declared further
    down and not initialised yet. *)
Definition useForm (schema : ZodObject) (upstreamData : JsObj) (config : Config)
    (st : FormState) : Completion UseFormReturn :=
  fieldErrors ← fieldErrors schema Uninitialized;
  let formValues := formValues schema (diff st) upstreamData in
  let ctx := ctx schema upstreamData config st fieldErrors in
  Normal {| return_ctx := ctx;
            return_formProps_noValidate := true;
            return_formDirty := formDirty schema (diff st);
            return_reset := reset;
            return_handleSubmit := λ W, handleSubmit schema formValues;
            return_touchAll := touchAll schema;
            return_resetTouched := resetTouched schema config;
            return_useField := useField ctx |}.

End UseForm.

(** *** The sibling version *)

Module UseFormRcf.
Import Js Zod React UseField FormConfig.

(** A formatter of this version is called with the error alone. *)
Record Formatter : Type := {
  format_error : ZodError → string;
  format_other : string → Completion string
}.

Abbreviation Config := (UseFormConfig Formatter).

Definition defaultShowValidationOn (config : Config) : ShowValidationOn :=
  default ShowTouched (config_defaultShowValidationOn config).
Definition defaultUntouchOn (config : Config) : UntouchOn :=
  default UntouchFocus (config_defaultUntouchOn config).
Definition formatErrorMessage (config : Config) : ZodError → string :=
  match config_formatErrorMessage config with
  | Some formatter => format_error formatter
  | None => defaultFormatErrorMessage
  end.
Definition formatNonError (config : Config) : string → Completion string :=
  match config_formatErrorMessage config with
  | Some formatter => format_other formatter
  | None => λ _, defaultFormatNonError
  end.

Definition initTouched (schema : ZodObject) (config : Config) : gmap string bool :=
  foldl (λ acc key, <[key := initTouched_at config key]> acc) ∅ (Object_keys (shape schema)).

Definition initialState (schema : ZodObject) (config : Config) : FormState :=
  {| diff := ∅; touchedFields := initTouched schema config |}.

Definition isTouched (touchedFields : gmap string bool) (fieldName : string) : bool :=
  match property touchedFields fieldName with
  | Own touched => touched
  | Inherited _ => true
  | Absent => false
  end.

Definition setTouched (fieldName : string) (touched : bool) : FormState → FormState :=
  setTouchedFields (SetUpdater (λ prev, <[fieldName := touched]> prev)).

Definition touchAll (schema : ZodObject) : FormState → FormState :=
  setTouchedFields
    (SetValue (foldl (λ acc key, <[key := true]> acc) ∅ (Object_keys (shape schema)))).

Definition isDiff (diff : JsObj) (fieldName : string) : bool :=
  is_defined (get diff fieldName).

Definition getUpstreamValue (upstreamData : JsObj) (fieldName : string) : JsVal :=
  get upstreamData fieldName.

Definition getValue (diff upstreamData : JsObj) (fieldName : string) : JsVal :=
  nullish (get diff fieldName) (getUpstreamValue upstreamData fieldName).

Definition dirtyFieldsArray (schema : ZodObject) (diff : JsObj) : list string :=
  filter (λ key, isDiff diff key = true) (Object_keys (shape schema)).

Definition fieldErrors (schema : ZodObject) (diff upstreamData : JsObj)
    : Completion (gmap string ZodError) :=
  reduceM (λ acc key,
      itemSchema ←
        match shape schema !! key with
        | Some t => Normal t
        | None => Throw (TypeError "Cannot read properties of undefined (reading 'safeParse')")
        end;
      match safeParse itemSchema (getValue diff upstreamData key) with
      | ParseFailure error => Normal (<[key := error]> acc)
      | ParseSuccess _ => Normal acc
      end)
    (Object_keys (shape schema)) ∅.

Definition getError (fieldErrors : gmap string ZodError) (fieldName : string)
    : Property ZodError :=
  property fieldErrors fieldName.

(** The context of this version has no [formValues], and its formatter takes
    the error alone. *)
Record UseFieldCtx : Type := {
  ctx_schema : ZodObject;
  ctx_isDirty : string → bool;
  ctx_isTouched : string → bool;
  ctx_getValue : string → JsVal;
  ctx_getError : string → Property ZodError;
  ctx_getUpstreamValue : string → JsVal;
  ctx_setDiff : SetStateAction JsObj → FormState → FormState;
  ctx_setTouched : string → bool → FormState → FormState;
  ctx_formatErrorMessage : ZodError → string;
  ctx_formatNonError : string → Completion string;
  ctx_defaultShowValidationOn : ShowValidationOn;
  ctx_defaultUntouchOn : UntouchOn
}.

Definition ctx (schema : ZodObject) (upstreamData : JsObj) (config : Config)
    (st : FormState) (fieldErrors : gmap string ZodError) : UseFieldCtx :=
  {| ctx_schema := schema;
     ctx_isDirty := isDiff (diff st);
     ctx_isTouched := isTouched (touchedFields st);
     ctx_getValue := getValue (diff st) upstreamData;
     ctx_getError := getError fieldErrors;
     ctx_getUpstreamValue := getUpstreamValue upstreamData;
     ctx_setDiff := React.setDiff;
     ctx_setTouched := setTouched;
     ctx_formatErrorMessage := formatErrorMessage config;
     ctx_formatNonError := formatNonError config;
     ctx_defaultShowValidationOn := defaultShowValidationOn config;
     ctx_defaultUntouchOn := defaultUntouchOn config |}.

(** The record that [handleSubmit] validates. *)
Definition fields (schema : ZodObject) (diff upstreamData : JsObj) : JsObj :=
  foldl (λ acc key, <[key := getValue diff upstreamData key]> acc)
    ∅ (Object_keys (shape schema)).

Definition handleSubmit {W : Type} (schema : ZodObject) (diff upstreamData : JsObj)
    (onSubmit : JsObj → W → W) (onError : option (ZodError → W → W)) (w : W) : W :=
  match safeParseObject schema (fields schema diff upstreamData) with
  | ParseSuccess data => onSubmit data w
  | ParseFailure error =>
      match onError with
      | Some onError => onError error w
      | None => w
      end
  end.

Definition reset : FormState → FormState := React.setDiff (SetValue ∅).

Definition formDirty (schema : ZodObject) (diff : JsObj) : bool :=
  bool_decide (0 < length (dirtyFieldsArray schema diff)).

Record UseFormReturn : Type := {
  return_ctx : UseFieldCtx;
  return_formProps_noValidate : bool;
  return_formDirty : bool;
  return_reset : FormState → FormState;
  return_handleSubmit :
    ∀ W : Type, (JsObj → W → W) → option (ZodError → W → W) → W → W;
  return_touchAll : FormState → FormState
}.

(** One render of this version: every [const] is declared before its use. *)
Definition useForm (schema : ZodObject) (upstreamData : JsObj) (config : Config)
    (st : FormState) : Completion UseFormReturn :=
  fieldErrors ← fieldErrors schema (diff st) upstreamData;
  Normal {| return_ctx := ctx schema upstreamData config st fieldErrors;
            return_formProps_noValidate := true;
            return_formDirty := formDirty schema (diff st);
            return_reset := reset;
            return_handleSubmit := λ W, handleSubmit schema (diff st) upstreamData;
            return_touchAll := touchAll schema |}.

End UseFormRcf.

(** *** The field binding of the sibling version *)

Module UseFieldRcf.
Import Js Zod React UseField UseFormRcf.

(** Its options have no [disabledIf]. *)
Record UseFieldOptions : Type := {
  options_disabled : option bool;
  options_showValidationOn : option ShowValidationOn;
  options_unTouchOn : option UntouchOn;
  options_parseValue : option (list JsArg → JsVal);
  options_isEqual : option (JsVal → JsVal → bool)
}.

Definition no_options : UseFieldOptions :=
  {| options_disabled := None; options_showValidationOn := None;
     options_unTouchOn := None; options_parseValue := None; options_isEqual := None |}.

Definition defaultIsEqual (a b : JsVal) : bool := strict_eq a b.

Definition disabled (options : UseFieldOptions) : bool :=
  default false (options_disabled options).
Definition showValidationOn (ctx : UseFieldCtx) (options : UseFieldOptions) : ShowValidationOn :=
  default (ctx_defaultShowValidationOn ctx) (options_showValidationOn options).
Definition unTouchOn (ctx : UseFieldCtx) (options : UseFieldOptions) : UntouchOn :=
  default (ctx_defaultUntouchOn ctx) (options_unTouchOn options).
Definition isEqual (options : UseFieldOptions) : JsVal → JsVal → bool :=
  default defaultIsEqual (options_isEqual options).

Definition touched (ctx : UseFieldCtx) (name : string) : bool := ctx_isTouched ctx name.
Definition upstreamValue (ctx : UseFieldCtx) (name : string) : JsVal :=
  ctx_getUpstreamValue ctx name.

Definition parsedValue (options : UseFieldOptions) (args : list JsArg) : Completion JsVal :=
  match options_parseValue options with
  | Some parseValue => Normal (parseValue args)
  | None =>
      match args with
      | ArgEvent v :: _ => Normal v
      | ArgValue VUndefined :: _ | [] =>
          Throw (TypeError "Cannot read properties of undefined (reading 'target')")
      | ArgValue VNull :: _ =>
          Throw (TypeError "Cannot read properties of null (reading 'target')")
      | ArgValue _ :: _ =>
          Throw (TypeError "Cannot read properties of undefined (reading 'value')")
      end
  end.

Definition onChange (ctx : UseFieldCtx) (name : string) (options : UseFieldOptions)
    (args : list JsArg) (st : FormState) : Completion FormState :=
  value ← parsedValue options args;
  let st :=
    if isEqual options value (upstreamValue ctx name)
    then ctx_setDiff ctx (SetUpdater (λ prev, <[name := VUndefined]> prev)) st
    else ctx_setDiff ctx (SetUpdater (λ prev, <[name := value]> prev)) st in
  let st :=
    if decide (unTouchOn ctx options = UntouchChange)
    then ctx_setTouched ctx name false st
    else st in
  Normal st.

Definition onFocus (ctx : UseFieldCtx) (name : string) (options : UseFieldOptions)
    (st : FormState) : FormState :=
  if decide (unTouchOn ctx options = UntouchFocus)
  then ctx_setTouched ctx name false st
  else st.

Definition onBlur (ctx : UseFieldCtx) (name : string) (st : FormState) : FormState :=
  ctx_setTouched ctx name true st.

Definition dirty (ctx : UseFieldCtx) (name : string) : bool := ctx_isDirty ctx name.
Definition error (ctx : UseFieldCtx) (name : string) : Property ZodError :=
  ctx_getError ctx name.
Definition valid (ctx : UseFieldCtx) (name : string) : bool :=
  match error ctx name with Absent => true | _ => false end.

Definition errorMessage (ctx : UseFieldCtx) (name : string) (options : UseFieldOptions)
    : Completion (option string) :=
  match error ctx name with
  | Absent => Normal None
  | Own err =>
      if bool_decide (showValidationOn ctx options = ShowTouched) && negb (touched ctx name)
      then Normal None
      else Normal (Some (ctx_formatErrorMessage ctx err))
  | Inherited member =>
      if bool_decide (showValidationOn ctx options = ShowTouched) && negb (touched ctx name)
      then Normal None
      else message ← ctx_formatNonError ctx member; Normal (Some message)
  end.

Definition inputProps (ctx : UseFieldCtx) (name : string) (options : UseFieldOptions)
    : Completion FieldInputProps :=
  let value := ctx_getValue ctx name in
  itemSchema ←
    match property (shape (ctx_schema ctx)) name with
    | Own t => Normal t
    | Inherited _ => Throw (TypeError "schema.shape[name].isOptional is not a function")
    | Absent => Throw (TypeError "Cannot read properties of undefined (reading 'isOptional')")
    end;
  Normal {| input_value := value;
            input_disabled := disabled options;
            input_required := negb (isOptional itemSchema);
            input_name := name;
            input_data_valid := valid ctx name;
            input_onChange := onChange ctx name options;
            input_onBlur := onBlur ctx name;
            input_onFocus := onFocus ctx name options |}.

Definition useField (ctx : UseFieldCtx) (name : string) (options : UseFieldOptions)
    : Completion FieldProps :=
  errorMessage ← errorMessage ctx name options;
  props ← inputProps ctx name options;
  Normal {| field_inputProps := props;
            field_upstreamValue := upstreamValue ctx name;
            field_disabled := disabled options;
            field_touched := touched ctx name;
            field_dirty := dirty ctx name;
            field_valid := valid ctx name;
            field_errorMessage := errorMessage |}.

End UseFieldRcf.

(* ===================================================================== *)
(** ** A host that drives the engine *)
(* ===================================================================== *)

Module Host.
Import Js Zod React UseField FormConfig.

(** A callback that only records that it was called, and with what. *)
Inductive Invocation : Type :=
| OnSubmit (data : JsObj)
| OnError (error : ZodError).

Definition record_onSubmit (data : JsObj) (log : list Invocation) : list Invocation :=
  log ++ [OnSubmit data].
Definition record_onError (error : ZodError) (log : list Invocation) : list Invocation :=
  log ++ [OnError error].

(** Events that the user fires on the inputs of a form.  Each event names the
    field and carries the options its input was bound with. *)
Inductive EventKind : Type :=
| Focus
| Change (args : list JsArg).

Record FieldEvent : Type := {
  event_name : string;
  event_options : UseFieldOptions;
  event_kind : EventKind
}.

(** The handler of the event runs on the current state; a handler that throws
    has not reached its state setters. *)
Definition fire (ctx : UseFieldCtx) (e : FieldEvent) (st : FormState) : FormState :=
  match event_kind e with
  | Focus => onFocus ctx (event_name e) (event_options e) st
  | Change args =>
      match onChange ctx (event_name e) (event_options e) args st with
      | Normal st' => st'
      | Throw _ => st
      end
  end.

(** The form is rendered again after each event. *)
Definition run (render : FormState → UseFieldCtx) (events : list FieldEvent)
    (st : FormState) : FormState :=
  foldl (λ st e, fire (render st) e st) st events.

(** The context that a render of the current version hands to its fields. *)
Definition render (schema : ZodObject) (upstreamData : JsObj) (config : UseForm.Config)
    (fe : gmap string ZodError) (st : FormState) : UseFieldCtx :=
  UseForm.ctx schema upstreamData config st fe.

(** A user form: a required first name and a nickname that can be cleared. *)
Definition userSchema : ZodObject :=
  z_object
    (<["firstName" := z_string_min1 "First name is required"]>
       (<["nickname" := z_nullable (z_string_min1 "Nickname is empty")]> ∅))
    Strict.

Definition userData : JsObj :=
  <["firstName" := VStr "John"]> (<["nickname" := VStr "Jo"]> ∅).

(** An input whose change handler is called with the new value itself. *)
Definition valueOptions : UseFieldOptions :=
  {| options_disabled := None; options_disabledIf := None;
     options_showValidationOn := None; options_unTouchOn := None;
     options_parseValue := Some (λ args, match args with
                                         | ArgValue v :: _ => v
                                         | ArgEvent v :: _ => v
                                         | [] => VUndefined
                                         end);
     options_isEqual := None |}.

(** An input that is never untouched by the user's focus or changes. *)
Definition neverOptions : UseFieldOptions :=
  {| options_disabled := None; options_disabledIf := None;
     options_showValidationOn := None; options_unTouchOn := Some UntouchNever;
     options_parseValue := None; options_isEqual := None |}.

(** The user has emptied the first name. *)
Definition emptyNameDiff : JsObj := {[ "firstName" := VStr "" ]}.

(** The error of an empty first name, and a first-name input that has it. *)
Definition requiredError : ZodError :=
  {| errors := [{| path := []; issue_message := "First name is required" |}];
     message := "First name is required" |}.

Definition userErrors : gmap string ZodError := {[ "firstName" := requiredError ]}.

(** An input that is disabled while the form has a nickname. *)
Definition lockedOptions : UseFieldOptions :=
  {| options_disabled := None;
     options_disabledIf := Some (λ formState, is_defined (get formState "nickname"));
     options_showValidationOn := None; options_unTouchOn := None;
     options_parseValue := None; options_isEqual := None |}.

Definition userEvents : list FieldEvent :=
  [ {| event_name := "firstName"; event_options := neverOptions; event_kind := Focus |};
    {| event_name := "firstName"; event_options := neverOptions;
       event_kind := Change [ArgEvent (VStr "Jane")] |};
    {| event_name := "nickname"; event_options := no_options; event_kind := Focus |} ].

(** An input that is untouched by a change. *)
Definition changeOptions : UseFieldOptions :=
  {| options_disabled := None; options_disabledIf := None;
     options_showValidationOn := None; options_unTouchOn := Some UntouchChange;
     options_parseValue := None; options_isEqual := None |}.

(** Two arrays with the same items that are not the same array. *)
Definition readWrite : JsVal := VArr 1 [VStr "Read"; VStr "Write"].
Definition readWriteCopy : JsVal := VArr 2 [VStr "Read"; VStr "Write"].

(** A form with a list of permissions. *)
Definition permissionsData : JsObj := {[ "permissions" := readWrite ]}.

(** A first name that the field's schema rejects. *)
Definition emptiedState : FormState :=
  {| diff := emptyNameDiff; touchedFields := ∅ |}.

(** The options of a binding of the current version, handed to the sibling:
    all of them but [disabledIf], which the sibling does not have. *)
Definition siblingOptions (options : UseFieldOptions) : UseFieldRcf.UseFieldOptions :=
  {| UseFieldRcf.options_disabled := options_disabled options;
     UseFieldRcf.options_showValidationOn := options_showValidationOn options;
     UseFieldRcf.options_unTouchOn := options_unTouchOn options;
     UseFieldRcf.options_parseValue := options_parseValue options;
     UseFieldRcf.options_isEqual := options_isEqual options |}.

(** The user form at its first render. *)
Definition userState : FormState := UseForm.initialState userSchema no_config.

(** A form with a field called [toString], a name that every plain object
    inherits. *)
Definition shadowSchema : ZodObject :=
  z_object {[ "toString" := z_string_min1 "Required" ]} Strip.

Definition shadowData : JsObj := {[ "toString" := VStr "x" ]}.

(** The user has changed that field to a value its schema accepts. *)
Definition shadowState : FormState :=
  {| diff := {[ "toString" := VStr "y" ]}; touchedFields := {[ "toString" := false ]} |}.

(** A binding of the sibling that shows validation always. *)
Definition alwaysOptions : UseFieldRcf.UseFieldOptions :=
  {| UseFieldRcf.options_disabled := None;
     UseFieldRcf.options_showValidationOn := Some ShowAlways;
     UseFieldRcf.options_unTouchOn := None;
     UseFieldRcf.options_parseValue := None;
     UseFieldRcf.options_isEqual := None |}.

(** [const { useField } = useForm(schema, upstreamData, config)] followed by
    [useField(name, options)]. *)
Definition bindField (schema : ZodObject) (upstreamData : JsObj) (config : UseForm.Config)
    (st : FormState) (name : string) (options : UseFieldOptions) : Completion FieldProps :=
  form ← UseForm.useForm schema upstreamData config st;
  UseForm.return_useField form name options.



(** [config] with the per-field equalities [isEqual] registered on the form. *)
Definition registerIsEqual {Formatter : Type}
    (isEqual : gmap string (JsVal → JsVal → bool)) (config : UseFormConfig Formatter)
    : UseFormConfig Formatter :=
  {| config_formatErrorMessage := config_formatErrorMessage config;
     config_isEqual := isEqual;
     config_initTouched := config_initTouched config;
     config_defaultShowValidationOn := config_defaultShowValidationOn config;
     config_defaultUntouchOn := config_defaultUntouchOn config |}.

(** An equality that takes any two lists of permissions for equal. *)
Definition permissionsIsEqual : gmap string (JsVal → JsVal → bool) :=
  {[ "permissions" := λ _ _, true ]}.

(** A config that touches every field at the first render. *)
Definition touchedConfig : UseForm.Config :=
  {| config_formatErrorMessage := None; config_isEqual := ∅;
     config_initTouched := Some (InitAll true);
     config_defaultShowValidationOn := None; config_defaultUntouchOn := None |}.

(** A binding of the current version that shows validation always. *)
Definition shownOptions : UseFieldOptions :=
  {| options_disabled := None; options_disabledIf := None;
     options_showValidationOn := Some ShowAlways; options_unTouchOn := None;
     options_parseValue := None; options_isEqual := None |}.

End Host.

(* ===================================================================== *)
(** ** Properties *)
(* ===================================================================== *)

Import Js Zod React FormConfig.

(** *** Objects and [reduce] *)

Section Objects.

Lemma property_own {A} (o : gmap string A) (k : string) (a : A) :
  o !! k = Some a → property o k = Own a.
Proof. intros Hk. unfold property. by rewrite Hk. Qed.

Lemma property_insert_eq {A} (o : gmap string A) (k : string) (a : A) :
  property (<[k := a]> o) k = Own a.
Proof. apply property_own, lookup_insert_eq. Qed.

Lemma property_insert_ne {A} (o : gmap string A) (k k' : string) (a : A) :
  k ≠ k' → property (<[k := a]> o) k' = property o k'.
Proof. intros Hne. unfold property. by rewrite lookup_insert_ne. Qed.

(** A name that no plain object inherits is found only as an own property. *)
Lemma property_ordinary {A} (o : gmap string A) (k : string) :
  k ∉ Object_prototype →
  property o k = match o !! k with Some a => Own a | None => Absent end.
Proof. intros Hk. unfold property. by rewrite bool_decide_eq_false_2. Qed.

Lemma get_insert_eq (o : JsObj) (k : string) (v : JsVal) : get (<[k := v]> o) k = v.
Proof. unfold get. by rewrite property_insert_eq. Qed.

Lemma get_insert_ne (o : JsObj) (k k' : string) (v : JsVal) :
  k ≠ k' → get (<[k := v]> o) k' = get o k'.
Proof. intros Hne. unfold get. by rewrite property_insert_ne. Qed.

(** A read of the empty object finds the inherited members. *)
Lemma get_empty (k : string) :
  get ∅ k = if bool_decide (k ∈ Object_prototype) then VBuiltin k else VUndefined.
Proof. unfold get, property. rewrite lookup_empty. by case_bool_decide. Qed.

Lemma get_empty_ordinary (k : string) : k ∉ Object_prototype → get ∅ k = VUndefined.
Proof. intros Hk. by rewrite get_empty, bool_decide_eq_false_2. Qed.

Lemma nullish_undefined (b : JsVal) : nullish VUndefined b = b.
Proof. done. Qed.

Lemma elem_of_Object_keys {A} (o : gmap string A) (k : string) :
  k ∈ Object_keys o ↔ is_Some (o !! k).
Proof.
  unfold Object_keys. rewrite list_elem_of_fmap. split.
  - intros [[k' a] [-> Hin]]. apply elem_of_map_to_list in Hin. by exists a.
  - intros [a Ha]. exists (k, a). split; [done|]. by apply elem_of_map_to_list.
Qed.

Lemma Object_keys_nil {A} (o : gmap string A) : Object_keys o = [] → o = ∅.
Proof.
  unfold Object_keys. intros H. apply fmap_nil_inv in H.
  by apply map_to_list_empty_iff.
Qed.

(** A [reduce] that assigns [acc[key] = g(key)] for every key. *)
Lemma lookup_foldl_insert {V} (g : string → V) (keys : list string)
    (init : gmap string V) (k : string) :
  foldl (λ acc key, <[key := g key]> acc) init keys !! k =
  if bool_decide (k ∈ keys) then Some (g k) else init !! k.
Proof.
  revert init. induction keys as [|key keys IH]; intros init; simpl.
  - done.
  - rewrite IH. destruct (decide (k ∈ keys)) as [Hin|Hnin].
    + rewrite !bool_decide_eq_true_2; [done| |done]. by right.
    + rewrite (bool_decide_eq_false_2 (k ∈ keys)); [|done].
      destruct (decide (k = key)) as [->|Hne].
      * rewrite bool_decide_eq_true_2; [|by left]. by rewrite lookup_insert_eq.
      * rewrite bool_decide_eq_false_2.
        -- by rewrite lookup_insert_ne.
        -- intros Hin. apply elem_of_cons in Hin as [?|?]; done.
Qed.

End Objects.

(** *** A binding that returns *)

Section Returns.
Import UseField.

Lemma useField_returns (ctx : UseFieldCtx) (name : string) (options : UseFieldOptions)
    (message : option string) (t : ZodType) :
  errorMessage ctx name options = Normal message →
  shape (schema ctx) !! name = Some t →
  useField ctx name options =
  Normal {| field_inputProps :=
              {| input_value := getValue ctx name;
                 input_disabled := inputProps_disabled ctx options;
                 input_required := negb (isOptional t);
                 input_name := name;
                 input_data_valid := valid ctx name;
                 input_onChange := onChange ctx name options;
                 input_onBlur := onBlur ctx name;
                 input_onFocus := onFocus ctx name options |};
            field_upstreamValue := upstreamValue ctx name;
            field_disabled := disabled options;
            field_touched := touched ctx name;
            field_dirty := dirty ctx name;
            field_valid := valid ctx name;
            field_errorMessage := message |}.
Proof.
  intros Hmsg Ht. unfold useField, inputProps. by rewrite Hmsg, (property_own _ _ _ Ht).
Qed.

Lemma useFieldRcf_returns (ctx : UseFormRcf.UseFieldCtx) (name : string)
    (options : UseFieldRcf.UseFieldOptions) (message : option string) (t : ZodType) :
  UseFieldRcf.errorMessage ctx name options = Normal message →
  shape (UseFormRcf.ctx_schema ctx) !! name = Some t →
  UseFieldRcf.useField ctx name options =
  Normal {| field_inputProps :=
              {| input_value := UseFormRcf.ctx_getValue ctx name;
                 input_disabled := UseFieldRcf.disabled options;
                 input_required := negb (isOptional t);
                 input_name := name;
                 input_data_valid := UseFieldRcf.valid ctx name;
                 input_onChange := UseFieldRcf.onChange ctx name options;
                 input_onBlur := UseFieldRcf.onBlur ctx name;
                 input_onFocus := UseFieldRcf.onFocus ctx name options |};
            field_upstreamValue := UseFieldRcf.upstreamValue ctx name;
            field_disabled := UseFieldRcf.disabled options;
            field_touched := UseFieldRcf.touched ctx name;
            field_dirty := UseFieldRcf.dirty ctx name;
            field_valid := UseFieldRcf.valid ctx name;
            field_errorMessage := message |}.
Proof.
  intros Hmsg Ht. unfold UseFieldRcf.useField, UseFieldRcf.inputProps.
  by rewrite Hmsg, (property_own _ _ _ Ht).
Qed.

End Returns.

(** *** Submission *)

Section Submit.
Import Host.

(** C1. [handleSubmit(onSuccess, onFailure)] with both callbacks supplied
    returns normally and, before it returns, has called exactly one of them:
    [onSuccess] with the parsed record when the full record passes the schema,
    [onFailure] with the error otherwise.  Both versions of [useForm]. *)
Theorem handleSubmit_calls_exactly_one
    (schema : ZodObject) (formValues diff upstreamData : JsObj) :
  (∀ (W : Type) (onSubmit : JsObj → W → W) (onError : ZodError → W → W) (w : W),
      UseForm.handleSubmit schema formValues onSubmit (Some onError) w =
      match safeParseObject schema formValues with
      | ParseSuccess data => onSubmit data w
      | ParseFailure error => onError error w
      end) ∧
  UseForm.handleSubmit schema formValues record_onSubmit (Some record_onError) [] =
    match safeParseObject schema formValues with
    | ParseSuccess data => [OnSubmit data]
    | ParseFailure error => [OnError error]
    end ∧
  (∀ (W : Type) (onSubmit : JsObj → W → W) (onError : ZodError → W → W) (w : W),
      UseFormRcf.handleSubmit schema diff upstreamData onSubmit (Some onError) w =
      match safeParseObject schema (UseFormRcf.fields schema diff upstreamData) with
      | ParseSuccess data => onSubmit data w
      | ParseFailure error => onError error w
      end) ∧
  UseFormRcf.handleSubmit schema diff upstreamData record_onSubmit (Some record_onError) [] =
    match safeParseObject schema (UseFormRcf.fields schema diff upstreamData) with
    | ParseSuccess data => [OnSubmit data]
    | ParseFailure error => [OnError error]
    end.
Proof.
  unfold UseForm.handleSubmit, UseFormRcf.handleSubmit.
  repeat split; intros; by case_match.
Qed.

(** C10. The second callback of [handleSubmit] is optional.  When it is left
    out and the full record fails the schema, no callback is called and
    [handleSubmit] returns normally: the host's world is as it was.  Both
    versions of [useForm]. *)
Theorem handleSubmit_without_onError_drops_failure
    (schema : ZodObject) (formValues diff upstreamData : JsObj) :
  (success (safeParseObject schema formValues) = false →
   (∀ (W : Type) (onSubmit : JsObj → W → W) (w : W),
       UseForm.handleSubmit schema formValues onSubmit None w = w) ∧
   UseForm.handleSubmit schema formValues record_onSubmit None [] = []) ∧
  (success (safeParseObject schema (UseFormRcf.fields schema diff upstreamData)) = false →
   (∀ (W : Type) (onSubmit : JsObj → W → W) (w : W),
       UseFormRcf.handleSubmit schema diff upstreamData onSubmit None w = w) ∧
   UseFormRcf.handleSubmit schema diff upstreamData record_onSubmit None [] = []).
Proof.
  unfold UseForm.handleSubmit, UseFormRcf.handleSubmit. split; intros Hfail.
  - destruct (safeParseObject schema formValues); [done|]. by split.
  - destruct (safeParseObject schema _); [done|]. by split.
Qed.

Lemma handleSubmit_without_onError_drops_failure_witness :
  ((∀ (W : Type) (onSubmit : JsObj → W → W) (w : W),
       UseForm.handleSubmit userSchema (UseForm.formValues userSchema emptyNameDiff userData)
         onSubmit None w = w) ∧
   UseForm.handleSubmit userSchema (UseForm.formValues userSchema emptyNameDiff userData)
     record_onSubmit None [] = []) ∧
  ((∀ (W : Type) (onSubmit : JsObj → W → W) (w : W),
       UseFormRcf.handleSubmit userSchema emptyNameDiff userData onSubmit None w = w) ∧
   UseFormRcf.handleSubmit userSchema emptyNameDiff userData record_onSubmit None [] = []).
Proof.
  destruct (handleSubmit_without_onError_drops_failure userSchema
              (UseForm.formValues userSchema emptyNameDiff userData)
              emptyNameDiff userData) as [Hcurrent Hsibling].
  split; [apply Hcurrent|apply Hsibling]; by vm_compute.
Defined.

End Submit.

(** *** Effective values, reset and the diff *)

Section Values.
Import Host UseField.

Definition is_nullish (v : JsVal) : bool :=
  match v with VUndefined | VNull => true | _ => false end.

(** The sibling's [getValue] overlays the diff on the upstream record for
    every entry that is neither [undefined] nor [null]. *)
Lemma getValue_overlay (diff upstreamData : JsObj) (f : string) :
  UseFormRcf.getValue diff upstreamData f =
  if is_nullish (get diff f) then UseFormRcf.getUpstreamValue upstreamData f
  else get diff f.
Proof. unfold UseFormRcf.getValue. by destruct (get diff f). Qed.

(** [formValues] holds, for a field of the schema, the same overlay; a read
    of any other name falls through to [Object.prototype]. *)
Lemma formValues_lookup (schema : ZodObject) (diff upstreamData : JsObj) (f : string) :
  UseForm.getValue (UseForm.formValues schema diff upstreamData) f =
  if bool_decide (f ∈ UseForm.fieldKeys schema)
  then nullish (get diff f) (UseForm.getUpstreamValue upstreamData f)
  else get ∅ f.
Proof.
  unfold UseForm.getValue, UseForm.formValues, get at 1, property.
  rewrite (lookup_foldl_insert
             (λ key, nullish (get diff key) (UseForm.getUpstreamValue upstreamData key))).
  case_bool_decide; [done|]. by rewrite lookup_empty.
Qed.

(** C6. [reset()] sets the diff to the empty object and leaves the touched
    map, in both versions.  For a field that is called like a member of
    [Object.prototype] the effective value is then not the upstream value and
    the form is still dirty: the read [diff[f]] of the empty diff finds the
    inherited member.  Here the form has a field [toString] with upstream
    value "x". *)
Theorem reset_leaves_a_prototype_named_field_dirty (st : FormState) :
  diff (UseForm.reset st) = ∅ ∧
  touchedFields (UseForm.reset st) = touchedFields st ∧
  UseFormRcf.reset st = UseForm.reset st ∧
  UseFormRcf.getUpstreamValue shadowData "toString" = VStr "x" ∧
  UseFormRcf.getValue (diff (UseFormRcf.reset st)) shadowData "toString"
    = VBuiltin "toString" ∧
  UseForm.getValue (UseForm.formValues shadowSchema (diff (UseForm.reset st)) shadowData)
    "toString" = VBuiltin "toString" ∧
  UseFormRcf.isDiff (diff (UseFormRcf.reset st)) "toString" = true ∧
  UseFormRcf.formDirty shadowSchema (diff (UseFormRcf.reset st)) = true ∧
  UseForm.formDirty shadowSchema (diff (UseForm.reset st)) = true.
Proof.
  change (diff (UseFormRcf.reset st)) with (∅ : JsObj).
  change (diff (UseForm.reset st)) with (∅ : JsObj).
  split_and!; try reflexivity; vm_compute; reflexivity.
Qed.

End Values.

(** *** The diff under change events *)

Section Diff.
Import Host UseField.

(** C2. A diff entry that holds [null] is an entry for [isDiff], so the field
    is dirty, but [??] skips it: [getValue], [formValues], the [value] of the
    binding and the submitted record show the upstream value.  Here the user
    clears the nickname of a form whose upstream nickname is "Jo". *)
Theorem null_entry_shows_upstream_value :
  let st0 := UseForm.initialState userSchema no_config in
  ∃ st data props,
    onChange (render userSchema userData no_config ∅ st0)
      "nickname" valueOptions [ArgValue VNull] st0 = Normal st ∧
    diff st !! "nickname" = Some VNull ∧
    UseForm.isDiff (diff st) "nickname" = true ∧
    UseFormRcf.isDiff (diff st) "nickname" = true ∧
    UseFormRcf.getValue (diff st) userData "nickname" = VStr "Jo" ∧
    UseForm.getValue (UseForm.formValues userSchema (diff st) userData) "nickname" = VStr "Jo" ∧
    useField (render userSchema userData no_config ∅ st) "nickname" valueOptions
      = Normal props ∧
    field_dirty props = true ∧
    input_value (field_inputProps props) = VStr "Jo" ∧
    UseFormRcf.handleSubmit userSchema (diff st) userData
      record_onSubmit (Some record_onError) [] = [OnSubmit data] ∧
    get data "nickname" = VStr "Jo".
Proof.
  eexists _, _, _. split_and!.
  - reflexivity.
  - vm_compute; reflexivity.
  - vm_compute; reflexivity.
  - vm_compute; reflexivity.
  - vm_compute; reflexivity.
  - vm_compute; reflexivity.
  - apply (useField_returns _ _ _ None (z_nullable (z_string_min1 "Nickname is empty")));
      vm_compute; reflexivity.
  - vm_compute; reflexivity.
  - vm_compute; reflexivity.
  - vm_compute; reflexivity.
  - vm_compute; reflexivity.
Qed.

(** What [onChange] does to the two state cells of the current version. *)
Lemma onChange_state (schema : ZodObject) (upstreamData : JsObj) (config : UseForm.Config)
    (fe : gmap string ZodError) (st : FormState)
    (name : string) (options : UseFieldOptions) (args : list JsArg) :
  onChange (UseForm.ctx schema upstreamData config st fe) name options args st =
  value ← parsedValue options args;
  Normal {| diff :=
              <[name := if isEqual options value (UseForm.getUpstreamValue upstreamData name)
                        then VUndefined else value]> (diff st);
            touchedFields :=
              if decide (default (UseForm.defaultUntouchOn config) (options_unTouchOn options)
                         = UntouchChange)
              then <[name := false]> (touchedFields st) else touchedFields st |}.
Proof.
  unfold onChange. destruct (parsedValue options args) as [value|e]; [|done].
  cbn [mbind Completion_bind]. unfold upstreamValue, unTouchOn. simpl.
  destruct (isEqual options value _); case_decide; by destruct st.
Qed.




End Diff.

(** *** The touch policy *)

Section Touch.
Import Host UseField.

Context (schema : ZodObject) (upstreamData : JsObj) (config : UseForm.Config)
        (fe : gmap string ZodError).

Local Abbreviation render := (Host.render schema upstreamData config fe).

(** The policy of a binding does not depend on the state of the form. *)
Lemma unTouchOn_render (st st' : FormState) (options : UseFieldOptions) :
  unTouchOn (render st) options = unTouchOn (render st') options.
Proof. done. Qed.

Lemma render_setTouched (st : FormState) :
  UseField.setTouched (render st) = UseForm.setTouched.
Proof. done. Qed.

Lemma render_setDiff (st : FormState) : UseField.setDiff (render st) = React.setDiff.
Proof. done. Qed.

Lemma touched_setTouched (st : FormState) (name name' : string) (b : bool) :
  touched (render (UseForm.setTouched name b st)) name' =
  if decide (name = name') then b else touched (render st) name'.
Proof.
  unfold touched, Host.render. simpl. unfold UseForm.isTouched.
  case_decide as Hn.
  - subst. by rewrite property_insert_eq.
  - by rewrite property_insert_ne.
Qed.

Lemma touched_setDiff (st : FormState) (act : SetStateAction JsObj) (name : string) :
  touched (render (React.setDiff act st)) name = touched (render st) name.
Proof. done. Qed.

(** An event of a binding that never untouches leaves the field's flag alone;
    so does any event of another field. *)
Lemma fire_keeps_touched (st : FormState) (e : FieldEvent) (name : string) :
  (event_name e = name → unTouchOn (render st) (event_options e) = UntouchNever) →
  touched (render (fire (render st) e st)) name = touched (render st) name.
Proof.
  intros Hpolicy. unfold fire. destruct (event_kind e) as [|args].
  - unfold onFocus. case_decide as Hfocus; [|done].
    rewrite render_setTouched, touched_setTouched. case_decide as Hn; [|done].
    specialize (Hpolicy Hn). congruence.
  - unfold onChange. destruct (parsedValue (event_options e) args) as [value|]; [|done].
    cbn [mbind Completion_bind]. rewrite render_setTouched, render_setDiff.
    case_decide as Hchange.
    + rewrite touched_setTouched. case_decide as Hn.
      * specialize (Hpolicy Hn). congruence.
      * case_match; apply touched_setDiff.
    + case_match; apply touched_setDiff.
Qed.

(** C7. [onBlur] sets the field touched.  Bound with [unTouchOn = "focus"], a
    following [onFocus] sets it untouched again.  Bound with
    [unTouchOn = "never"], the field stays touched through every sequence of
    focus and change events, on this field and on the others. *)
Theorem touch_policy (st : FormState) (name : string) (options : UseFieldOptions) :
  touched (render (onBlur (render st) name st)) name = true ∧
  (unTouchOn (render st) options = UntouchFocus →
   touched (render (onFocus (render (onBlur (render st) name st)) name options
                      (onBlur (render st) name st))) name = false) ∧
  (∀ events : list FieldEvent,
     (∀ e, e ∈ events → event_name e = name →
           unTouchOn (render st) (event_options e) = UntouchNever) →
     touched (render (run render events (onBlur (render st) name st))) name = true).
Proof.
  set (blurred := onBlur (render st) name st).
  assert (Hblur : touched (render blurred) name = true).
  { unfold blurred, onBlur. rewrite render_setTouched, touched_setTouched. by case_decide. }
  split_and!; [done| |].
  - intros Hfocus. unfold onFocus.
    rewrite <- (unTouchOn_render st blurred), Hfocus.
    case_decide; [|done]. rewrite render_setTouched, touched_setTouched. by case_decide.
  - intros events. revert Hblur. generalize blurred. clear blurred.
    induction events as [|e events IH]; intros st1 Hst1 Hevents; [done|].
    unfold run. simpl. apply IH.
    + rewrite fire_keeps_touched; [done|].
      intros Hn. rewrite <- (unTouchOn_render st st1). apply Hevents; [by left|done].
    + intros e' He'. apply Hevents. by right.
Qed.

End Touch.

Section TouchWitness.
Import Host UseField.

Lemma touch_policy_witness :
  touched (render userSchema userData no_config ∅
             (onBlur (render userSchema userData no_config ∅
                        (UseForm.initialState userSchema no_config))
                "firstName" (UseForm.initialState userSchema no_config))) "firstName" = true ∧
  touched (render userSchema userData no_config ∅
             (onFocus (render userSchema userData no_config ∅
                         (onBlur (render userSchema userData no_config ∅
                                    (UseForm.initialState userSchema no_config))
                            "firstName" (UseForm.initialState userSchema no_config)))
                "firstName" no_options
                (onBlur (render userSchema userData no_config ∅
                           (UseForm.initialState userSchema no_config))
                   "firstName" (UseForm.initialState userSchema no_config)))) "firstName"
    = false ∧
  touched (render userSchema userData no_config ∅
             (run (render userSchema userData no_config ∅) userEvents
                (onBlur (render userSchema userData no_config ∅
                           (UseForm.initialState userSchema no_config))
                   "firstName" (UseForm.initialState userSchema no_config)))) "firstName"
    = true.
Proof.
  pose proof (touch_policy userSchema userData no_config ∅
                (UseForm.initialState userSchema no_config) "firstName" no_options)
    as (Hblur & Hfocus & Hnever).
  split_and!.
  - exact Hblur.
  - exact (Hfocus eq_refl).
  - refine (Hnever userEvents _). intros e He Hn. unfold userEvents in He.
    repeat (apply elem_of_cons in He as [->|He]); [reflexivity|reflexivity|discriminate Hn|].
    apply elem_of_nil in He. destruct He.
Defined.

End TouchWitness.

(** *** What a binding shows *)

Section Binding.
Import Host UseField.

(** C8. A field called like a member of [Object.prototype] whose effective
    value its schema accepts has no own entry in the error map, and the read
    [fieldErrors[name]] finds the inherited member: the binding is not valid,
    and where the message is not held back for a touch, the default formatter
    is handed the member and throws.  Here the field [toString] of the sibling
    form holds "y"; the same [errorMessage] of the current version throws on
    the context that its [useForm] builds from that state and error map. *)
Theorem accepted_value_of_a_prototype_named_field_has_an_error :
  ∃ form,
    UseFormRcf.useForm shadowSchema shadowData no_config shadowState = Normal form ∧
    UseFormRcf.getValue (diff shadowState) shadowData "toString" = VStr "y" ∧
    success (safeParse (z_string_min1 "Required") (VStr "y")) = true ∧
    UseFormRcf.fieldErrors shadowSchema (diff shadowState) shadowData = Normal ∅ ∧
    UseFormRcf.ctx_getError (UseFormRcf.return_ctx form) "toString" = Inherited "toString" ∧
    (∃ props,
       UseFieldRcf.useField (UseFormRcf.return_ctx form) "toString" UseFieldRcf.no_options
         = Normal props ∧
       field_valid props = false ∧
       input_value (field_inputProps props) = VStr "y") ∧
    UseFieldRcf.errorMessage (UseFormRcf.return_ctx form) "toString" alwaysOptions
      = Throw (TypeError "Cannot read properties of undefined (reading '0')") ∧
    UseFieldRcf.useField (UseFormRcf.return_ctx form) "toString" alwaysOptions
      = Throw (TypeError "Cannot read properties of undefined (reading '0')") ∧
    errorMessage (render shadowSchema shadowData no_config ∅ shadowState)
      "toString" shownOptions
      = Throw (TypeError "Cannot read properties of undefined (reading '0')").
Proof.
  assert (Hfe : UseFormRcf.fieldErrors shadowSchema (diff shadowState) shadowData = Normal ∅)
    by (vm_compute; reflexivity).
  exists {| UseFormRcf.return_ctx := UseFormRcf.ctx shadowSchema shadowData no_config shadowState ∅;
            UseFormRcf.return_formProps_noValidate := true;
            UseFormRcf.return_formDirty := UseFormRcf.formDirty shadowSchema (diff shadowState);
            UseFormRcf.return_reset := UseFormRcf.reset;
            UseFormRcf.return_handleSubmit :=
              λ W, UseFormRcf.handleSubmit shadowSchema (diff shadowState) shadowData;
            UseFormRcf.return_touchAll := UseFormRcf.touchAll shadowSchema |}.
  cbn [UseFormRcf.return_ctx].
  split_and!.
  - unfold UseFormRcf.useForm. by rewrite Hfe.
  - vm_compute; reflexivity.
  - vm_compute; reflexivity.
  - exact Hfe.
  - vm_compute; reflexivity.
  - eexists. split.
    + apply (useFieldRcf_returns _ _ _ None (z_string_min1 "Required"));
        vm_compute; reflexivity.
    + split; vm_compute; reflexivity.
  - vm_compute; reflexivity.
  - vm_compute; reflexivity.
  - vm_compute; reflexivity.
Qed.

(** A render of the current [useForm] with a field throws, so the [useField]
    that it would return binds no field. *)
Lemma bindField_throws (schema : ZodObject) (upstreamData : JsObj) (config : UseForm.Config)
    (st : FormState) (name : string) (options : UseFieldOptions) :
  shape schema ≠ ∅ →
  bindField schema upstreamData config st name options =
  Throw (ReferenceError "Cannot access 'getValue' before initialization").
Proof.
  intros Hne. unfold bindField.
  destruct (Object_keys (shape schema)) as [|key keys] eqn:Hkeys.
  - by apply Object_keys_nil in Hkeys.
  - assert (Hin : key ∈ Object_keys (shape schema)) by (rewrite Hkeys; by left).
    apply elem_of_Object_keys in Hin as [t Ht].
    unfold UseForm.useForm, UseForm.fieldErrors, UseForm.fieldKeys.
    rewrite Hkeys. simpl. by rewrite Ht.
Qed.



End Binding.

(** *** Rendering the form *)

Section Render.
Import Host UseField.

Lemma fieldKeys_cons (schema : ZodObject) :
  shape schema ≠ ∅ →
  ∃ key keys itemSchema,
    Object_keys (shape schema) = key :: keys ∧ shape schema !! key = Some itemSchema.
Proof.
  intros Hne. destruct (Object_keys (shape schema)) as [|key keys] eqn:Hkeys.
  - by apply Object_keys_nil in Hkeys.
  - assert (Hin : key ∈ Object_keys (shape schema)) by (rewrite Hkeys; by left).
    apply elem_of_Object_keys in Hin as [itemSchema Hitem]. by exists key, keys, itemSchema.
Qed.

(** C4. A render of the current [useForm] with a schema of at least one field
    throws: the callback that computes [fieldErrors] calls [getValue] for the
    first field, and [getValue] is declared below it in the block. *)
Theorem useForm_throws_on_first_field
    (schema : ZodObject) (upstreamData : JsObj) (config : UseForm.Config) (st : FormState) :
  shape schema ≠ ∅ →
  UseForm.useForm schema upstreamData config st =
  Throw (ReferenceError "Cannot access 'getValue' before initialization").
Proof.
  intros Hne. destruct (fieldKeys_cons schema Hne) as (key & keys & itemSchema & Hkeys & Hitem).
  unfold UseForm.useForm, UseForm.fieldErrors, UseForm.fieldKeys.
  rewrite Hkeys. simpl. by rewrite Hitem.
Qed.

Lemma useForm_throws_on_first_field_witness :
  UseForm.useForm userSchema userData no_config (UseForm.initialState userSchema no_config) =
  Throw (ReferenceError "Cannot access 'getValue' before initialization").
Proof.
  apply (useForm_throws_on_first_field userSchema userData no_config
           (UseForm.initialState userSchema no_config)).
  intros Hempty.
  assert (H : shape userSchema !! "firstName" = None) by (rewrite Hempty; apply lookup_empty).
  vm_compute in H. discriminate H.
Defined.

(** The error map of the sibling: one entry for each field whose effective
    value fails the field's schema. *)
Lemma reduce_fieldErrors (sh : gmap string ZodType) (gv : string → JsVal)
    (keys : list string) (acc : gmap string ZodError) :
  (∀ k, k ∈ keys → is_Some (sh !! k)) →
  ∃ fe,
    reduceM (λ acc key,
        itemSchema ←
          match sh !! key with
          | Some t => Normal t
          | None =>
              Throw (TypeError "Cannot read properties of undefined (reading 'safeParse')")
          end;
        match safeParse itemSchema (gv key) with
        | ParseFailure error => Normal (<[key := error]> acc)
        | ParseSuccess _ => Normal acc
        end) keys acc = Normal fe ∧
    ∀ k, fe !! k =
         match sh !! k with
         | Some t =>
             match safeParse t (gv k) with
             | ParseFailure e => if bool_decide (k ∈ keys) then Some e else acc !! k
             | ParseSuccess _ => acc !! k
             end
         | None => acc !! k
         end.
Proof.
  revert acc. induction keys as [|key keys IH]; intros acc Hkeys.
  - exists acc. split; [done|]. intros k. by repeat case_match.
  - destruct (Hkeys key) as [t Ht]; [by left|].
    simpl. rewrite Ht. simpl.
    destruct (safeParse t (gv key)) as [v|e] eqn:Hparse.
    + destruct (IH acc) as (fe & Hfe & Hlookup); [intros; apply Hkeys; by right|].
      exists fe. split; [done|]. intros k. rewrite Hlookup.
      destruct (sh !! k) as [t'|] eqn:Hk; [|done].
      destruct (safeParse t' (gv k)) as [v'|e'] eqn:Hparse'; [done|].
      destruct (decide (k = key)) as [->|Hne]; [congruence|].
      destruct (decide (k ∈ keys)).
      * rewrite !bool_decide_eq_true_2; [done|by right|done].
      * rewrite !bool_decide_eq_false_2; [done| |done].
        intros [?|?]%elem_of_cons; done.
    + destruct (IH (<[key := e]> acc)) as (fe & Hfe & Hlookup); [intros; apply Hkeys; by right|].
      exists fe. split; [done|]. intros k. rewrite Hlookup.
      destruct (decide (k = key)) as [->|Hne].
      * rewrite Ht, Hparse, lookup_insert_eq.
        rewrite (bool_decide_eq_true_2 (key ∈ key :: keys)); [|by left].
        by case_bool_decide.
      * rewrite lookup_insert_ne; [|done].
        destruct (sh !! k) as [t'|] eqn:Hk; [|done].
        destruct (safeParse t' (gv k)) as [v'|e'] eqn:Hparse'; [done|].
        destruct (decide (k ∈ keys)).
        -- rewrite !bool_decide_eq_true_2; [done|by right|done].
        -- rewrite !bool_decide_eq_false_2; [done| |done].
           intros [?|?]%elem_of_cons; done.
Qed.

Lemma fieldErrors_returns (schema : ZodObject) (diff upstreamData : JsObj) :
  ∃ fe,
    UseFormRcf.fieldErrors schema diff upstreamData = Normal fe ∧
    ∀ k, fe !! k =
         match shape schema !! k with
         | Some t =>
             match safeParse t (UseFormRcf.getValue diff upstreamData k) with
             | ParseFailure e => Some e
             | ParseSuccess _ => None
             end
         | None => None
         end.
Proof.
  destruct (reduce_fieldErrors (shape schema) (UseFormRcf.getValue diff upstreamData)
              (Object_keys (shape schema)) ∅) as (fe & Hfe & Hlookup).
  { intros k. apply elem_of_Object_keys. }
  exists fe. split; [exact Hfe|]. intros k. rewrite Hlookup, lookup_empty.
  destruct (shape schema !! k) as [t|] eqn:Hk; [|done].
  case_match; [done|]. rewrite bool_decide_eq_true_2; [done|].
  apply elem_of_Object_keys. by exists t.
Qed.

(** The sibling version renders for every schema and every state. *)
Lemma useFormRcf_returns (schema : ZodObject) (upstreamData : JsObj)
    (config : UseFormRcf.Config) (st : FormState) :
  returns (UseFormRcf.useForm schema upstreamData config st) = true.
Proof.
  unfold UseFormRcf.useForm.
  destruct (fieldErrors_returns schema (diff st) upstreamData) as (fe & -> & _). done.
Qed.

End Render.

(** *** Field checks against the full-record check *)

Section Validity.
Import Host UseField.


Lemma filter_eq_nil {A} (P : A → Prop) `{∀ x, Decision (P x)} (l : list A) :
  (∀ x, x ∈ l → ¬ P x) → filter P l = [].
Proof.
  induction l as [|a l IH]; intros Hl; [done|].
  rewrite filter_cons_False; [|apply Hl; by left].
  apply IH. intros x Hx. apply Hl. by right.
Qed.









End Validity.

(** *** The touched map *)

Section TouchedMap.
Import Host UseField.

Lemma bool_decide_Object_keys {A} (o : gmap string A) (k : string) :
  bool_decide (k ∈ Object_keys o) = bool_decide (is_Some (o !! k)).
Proof. apply bool_decide_ext, elem_of_Object_keys. Qed.

(** The flag of a name in a touched map that a [reduce] has built. *)
Lemma isTouched_foldl_insert (g : string → bool) (keys : list string) (f : string) :
  UseForm.isTouched (foldl (λ acc key, <[key := g key]> acc) ∅ keys) f =
  if bool_decide (f ∈ keys) then g f else bool_decide (f ∈ Object_prototype).
Proof.
  unfold UseForm.isTouched, property. rewrite (lookup_foldl_insert g).
  case_bool_decide; [done|]. rewrite lookup_empty. by case_bool_decide.
Qed.

Lemma isTouched_touchAll_sibling (schema : ZodObject) (st : FormState) (f : string) :
  UseFormRcf.isTouched (touchedFields (UseFormRcf.touchAll schema st)) f
    = bool_decide (is_Some (shape schema !! f)) || bool_decide (f ∈ Object_prototype).
Proof.
  change (UseFormRcf.isTouched (touchedFields (UseFormRcf.touchAll schema st)) f)
    with (UseForm.isTouched
            (foldl (λ acc key, <[key := (λ _, true) key]> acc) ∅ (Object_keys (shape schema))) f).
  rewrite isTouched_foldl_insert, bool_decide_Object_keys. by case_bool_decide.
Qed.

(** [touchAll()] replaces the touched map by one that has [true] for each
    field of the schema and nothing else.  Every field of the schema is then
    touched; of the other names, [isTouched] is true exactly for those that a
    plain object inherits from [Object.prototype], whatever flag they had.
    The diff is not changed.  Both versions. *)
Theorem touchAll_touches_the_schema_fields
    (schema : ZodObject) (st : FormState) (f : string) :
  UseForm.isTouched (touchedFields (UseForm.touchAll schema st)) f
    = bool_decide (is_Some (shape schema !! f)) || bool_decide (f ∈ Object_prototype) ∧
  UseFormRcf.isTouched (touchedFields (UseFormRcf.touchAll schema st)) f
    = bool_decide (is_Some (shape schema !! f)) || bool_decide (f ∈ Object_prototype) ∧
  diff (UseForm.touchAll schema st) = diff st ∧
  diff (UseFormRcf.touchAll schema st) = diff st.
Proof.
  split_and!; [| |done|done].
  - change (UseForm.isTouched (touchedFields (UseForm.touchAll schema st)) f)
      with (UseForm.isTouched
              (foldl (λ acc key, <[key := (λ _, true) key]> acc) ∅ (Object_keys (shape schema)))
              f).
    rewrite isTouched_foldl_insert, bool_decide_Object_keys. by case_bool_decide.
  - apply isTouched_touchAll_sibling.
Qed.

(** At the first render of a form without a field called [__proto__], a
    field of the schema is touched exactly when [config.initTouched] says so,
    as [initTouched_at] reads it: [true] touches every field, a per-field map
    the fields under whose name it holds [true] or inherits a member of
    [Object.prototype], and no [initTouched] none.  A name outside the schema
    starts untouched unless a plain object inherits it from
    [Object.prototype]: for such a name [isTouched] is true.  The diff starts
    empty.  Both versions. *)
Theorem initialState_touched
    (schema : ZodObject) (config : UseForm.Config) (config' : UseFormRcf.Config)
    (f : string) :
  shape schema !! "__proto__" = None →
  UseForm.isTouched (touchedFields (UseForm.initialState schema config)) f
    = (if bool_decide (is_Some (shape schema !! f)) then initTouched_at config f
       else bool_decide (f ∈ Object_prototype)) ∧
  UseFormRcf.isTouched (touchedFields (UseFormRcf.initialState schema config')) f
    = (if bool_decide (is_Some (shape schema !! f)) then initTouched_at config' f
       else bool_decide (f ∈ Object_prototype)) ∧
  diff (UseForm.initialState schema config) = ∅ ∧
  diff (UseFormRcf.initialState schema config') = ∅.
Proof.
  intros _. split_and!; [| |done|done].
  - change (UseForm.isTouched (touchedFields (UseForm.initialState schema config)) f)
      with (UseForm.isTouched
              (foldl (λ acc key, <[key := initTouched_at config key]> acc) ∅
                 (Object_keys (shape schema))) f).
    by rewrite isTouched_foldl_insert, bool_decide_Object_keys.
  - change (UseFormRcf.isTouched (touchedFields (UseFormRcf.initialState schema config')) f)
      with (UseForm.isTouched
              (foldl (λ acc key, <[key := initTouched_at config' key]> acc) ∅
                 (Object_keys (shape schema))) f).
    by rewrite isTouched_foldl_insert, bool_decide_Object_keys.
Qed.

(** [resetTouched()] sets the touched map that [initTouched] gives for the
    config of the render it is called in, and leaves the diff.  On a form
    without a field called [__proto__], it gives every field the flag of the
    first render exactly when that config touches the fields of the schema as
    the config of the first render did. *)
Theorem resetTouched_restores_the_initTouched_of_its_render
    (schema : ZodObject) (config0 config : UseForm.Config) (st : FormState) :
  shape schema !! "__proto__" = None →
  touchedFields (UseForm.resetTouched schema config st) = UseForm.initTouched schema config ∧
  diff (UseForm.resetTouched schema config st) = diff st ∧
  ((∀ f, UseForm.isTouched (touchedFields (UseForm.resetTouched schema config st)) f
         = UseForm.isTouched (touchedFields (UseForm.initialState schema config0)) f) ↔
   (∀ f, is_Some (shape schema !! f) → initTouched_at config f = initTouched_at config0 f)).
Proof.
  intros _. split_and!; [done|done|].
  assert (Hflag : ∀ c f,
    UseForm.isTouched (UseForm.initTouched schema c) f =
    if bool_decide (is_Some (shape schema !! f)) then initTouched_at c f
    else bool_decide (f ∈ Object_prototype)).
  { intros c f. unfold UseForm.initTouched, UseForm.fieldKeys.
    by rewrite (isTouched_foldl_insert (initTouched_at c)), bool_decide_Object_keys. }
  change (touchedFields (UseForm.resetTouched schema config st))
    with (UseForm.initTouched schema config).
  change (touchedFields (UseForm.initialState schema config0))
    with (UseForm.initTouched schema config0).
  split.
  - intros Hsame f Hf. specialize (Hsame f). rewrite !Hflag in Hsame.
    by rewrite bool_decide_eq_true_2 in Hsame.
  - intros Hsame f. rewrite !Hflag. case_bool_decide as Hf; [by apply Hsame|done].
Qed.

(** [setTouched(f, b)] makes [isTouched(f)] equal to [b], leaves the flag of
    every other field and the diff, and the last of two calls for a field
    wins.  Both versions. *)
Theorem setTouched_isTouched (st : FormState) (f f' : string) (b b' : bool) :
  UseForm.isTouched (touchedFields (UseForm.setTouched f b st)) f'
    = (if decide (f = f') then b else UseForm.isTouched (touchedFields st) f') ∧
  UseFormRcf.isTouched (touchedFields (UseFormRcf.setTouched f b st)) f'
    = (if decide (f = f') then b else UseFormRcf.isTouched (touchedFields st) f') ∧
  diff (UseForm.setTouched f b st) = diff st ∧
  UseForm.setTouched f b (UseForm.setTouched f b' st) = UseForm.setTouched f b st ∧
  UseFormRcf.setTouched f b st = UseForm.setTouched f b st.
Proof.
  split_and!; [| |done| |done].
  - unfold UseForm.isTouched. simpl. case_decide as Hf.
    + subst. by rewrite property_insert_eq.
    + by rewrite property_insert_ne.
  - unfold UseFormRcf.isTouched. simpl. case_decide as Hf.
    + subst. by rewrite property_insert_eq.
    + by rewrite property_insert_ne.
  - unfold UseForm.setTouched, setTouchedFields. simpl. by rewrite insert_insert_eq.
Qed.

End TouchedMap.

(** *** Dirty fields and the submitted record *)

Section Dirty.
Import Host UseField.

Lemma filter_nonempty {A} (P : A → Prop) `{∀ x, Decision (P x)} (l : list A) :
  0 < length (filter P l) ↔ ∃ x, x ∈ l ∧ P x.
Proof.
  split.
  - destruct (filter P l) as [|x l'] eqn:Hf; simpl; [lia|]. intros _.
    assert (Hx : x ∈ filter P l) by (rewrite Hf; by left).
    apply list_elem_of_filter in Hx as [HP Hx]. by exists x.
  - intros (x & Hx & HP).
    assert (Hin : x ∈ filter P l) by by apply list_elem_of_filter.
    destruct (filter P l); [by apply elem_of_nil in Hin|simpl; lia].
Qed.

Lemma formDirty_true (schema : ZodObject) (diff : JsObj) :
  UseForm.formDirty schema diff = true ↔
  ∃ f, is_Some (shape schema !! f) ∧ UseForm.isDiff diff f = true.
Proof.
  unfold UseForm.formDirty, UseForm.fieldKeys.
  rewrite bool_decide_eq_true, filter_nonempty.
  by setoid_rewrite elem_of_Object_keys.
Qed.

(** [formDirty] is true exactly when some field of the schema has a diff entry
    other than [undefined].  An entry under a name outside the schema does not
    make the form dirty.  Both versions. *)
Theorem formDirty_iff_a_schema_field_is_dirty (schema : ZodObject) (diff : JsObj) :
  (UseForm.formDirty schema diff = true ↔
   ∃ f, is_Some (shape schema !! f) ∧ UseForm.isDiff diff f = true) ∧
  (UseFormRcf.formDirty schema diff = true ↔
   ∃ f, is_Some (shape schema !! f) ∧ UseFormRcf.isDiff diff f = true).
Proof.
  split.
  - apply formDirty_true.
  - unfold UseFormRcf.formDirty, UseFormRcf.dirtyFieldsArray.
    rewrite bool_decide_eq_true, filter_nonempty.
    by setoid_rewrite elem_of_Object_keys.
Qed.


End Dirty.

(** *** Change, focus and blur *)

Section Handlers.
Import Host UseField.

Context (schema : ZodObject) (upstreamData : JsObj) (config : UseForm.Config)
        (fe : gmap string ZodError).

Local Abbreviation render := (Host.render schema upstreamData config fe).

(** What [onChange] does to the two state cells. *)
Lemma onChange_render (st : FormState) (name : string) (options : UseFieldOptions)
    (args : list JsArg) :
  onChange (render st) name options args st =
  value ← parsedValue options args;
  Normal {| diff :=
              <[name := if isEqual options value (UseForm.getUpstreamValue upstreamData name)
                        then VUndefined else value]> (diff st);
            touchedFields :=
              if decide (unTouchOn (render st) options = UntouchChange)
              then <[name := false]> (touchedFields st) else touchedFields st |}.
Proof.
  unfold onChange. destruct (parsedValue options args) as [value|e]; [|done].
  cbn [mbind Completion_bind]. unfold upstreamValue.
  change (UseField.getUpstreamValue (render st) name)
    with (UseForm.getUpstreamValue upstreamData name).
  destruct (isEqual options value _); case_decide; by destruct st.
Qed.


Lemma formDirty_clean (d : JsObj) :
  (∀ f, UseForm.isDiff d f = false) → UseForm.formDirty schema d = false.
Proof.
  intros Hclean. unfold UseForm.formDirty.
  rewrite filter_eq_nil; [done|]. intros f _. by rewrite Hclean.
Qed.

(** A change followed by a change back to a value equal to the upstream value
    leaves a form that was not dirty not dirty: the field is not dirty after
    it, and no other name has changed. *)
Theorem edit_then_revert_is_not_dirty
    (st : FormState) (name : string) (options : UseFieldOptions)
    (args args' : list JsArg) (value value' : JsVal) :
  parsedValue options args = Normal value →
  parsedValue options args' = Normal value' →
  isEqual options value' (UseForm.getUpstreamValue upstreamData name) = true →
  UseForm.formDirty schema (diff st) = false →
  ∃ st1 st2,
    onChange (render st) name options args st = Normal st1 ∧
    onChange (render st1) name options args' st1 = Normal st2 ∧
    UseForm.isDiff (diff st2) name = false ∧
    (∀ f, f ≠ name → UseForm.isDiff (diff st2) f = UseForm.isDiff (diff st) f) ∧
    UseForm.formDirty schema (diff st2) = false.
Proof.
  intros Hparse Hparse' Heq Hclean.
  rewrite onChange_render, Hparse. cbn [mbind Completion_bind].
  eexists _, _. split; [reflexivity|].
  rewrite onChange_render, Hparse'. cbn [mbind Completion_bind].
  split; [reflexivity|]. rewrite Heq. simpl.
  assert (Hname : UseForm.isDiff
      (<[name := VUndefined]>
         (<[name := if isEqual options value (UseForm.getUpstreamValue upstreamData name)
                    then VUndefined else value]> (diff st))) name = false).
  { unfold UseForm.isDiff. by rewrite get_insert_eq. }
  assert (Hframe : ∀ f, f ≠ name →
    UseForm.isDiff
      (<[name := VUndefined]>
         (<[name := if isEqual options value (UseForm.getUpstreamValue upstreamData name)
                    then VUndefined else value]> (diff st))) f = UseForm.isDiff (diff st) f).
  { intros f Hf. unfold UseForm.isDiff. by rewrite !get_insert_ne. }
  split_and!; [exact Hname|exact Hframe|].
  match goal with |- ?dirty = false => destruct dirty eqn:Hdirty; [|done] end.
  apply formDirty_true in Hdirty as (f & Hschema & Hf).
  destruct (decide (f = name)) as [->|Hne]; [congruence|].
  rewrite Hframe in Hf by done.
  assert (Hwas : UseForm.formDirty schema (diff st) = true)
    by (apply formDirty_true; by exists f).
  congruence.
Qed.

(** An input bound without [parseValue] reads [e.target.value]: its
    [onChange] returns exactly when its first argument is a change event, and
    throws, before any state is set, when it is called with no argument or
    with a bare value. *)
Theorem onChange_without_parseValue_needs_an_event
    (st : FormState) (name : string) (options : UseFieldOptions) (args : list JsArg) :
  options_parseValue options = None →
  returns (onChange (render st) name options args st)
    = match args with ArgEvent _ :: _ => true | _ => false end ∧
  (∀ v rest, args = ArgEvent v :: rest → parsedValue options args = Normal v).
Proof.
  intros Hnone. rewrite onChange_render. unfold parsedValue. rewrite Hnone. split.
  - destruct args as [|[v|v] rest]; [done|done|]. by destruct v.
  - by intros v rest ->.
Qed.

(** The handlers of a field leave the rest of the form alone: [onBlur] and
    [onFocus] never change the diff, and [onChange] changes neither the diff
    entry nor the touched flag of another field. *)
Theorem handlers_leave_other_fields
    (st : FormState) (name : string) (options : UseFieldOptions) (args : list JsArg) :
  diff (onBlur (render st) name st) = diff st ∧
  diff (onFocus (render st) name options st) = diff st ∧
  (∀ name', name' ≠ name →
     UseForm.isTouched (touchedFields (onBlur (render st) name st)) name'
       = UseForm.isTouched (touchedFields st) name' ∧
     UseForm.isTouched (touchedFields (onFocus (render st) name options st)) name'
       = UseForm.isTouched (touchedFields st) name') ∧
  (∀ st' name', onChange (render st) name options args st = Normal st' → name' ≠ name →
     get (diff st') name' = get (diff st) name' ∧
     UseForm.isTouched (touchedFields st') name' = UseForm.isTouched (touchedFields st) name').
Proof.
  split_and!.
  - done.
  - unfold onFocus. by case_decide.
  - intros name' Hne. unfold onBlur, onFocus, UseForm.isTouched. split.
    + simpl. by rewrite property_insert_ne.
    + case_decide; [|done]. simpl. by rewrite property_insert_ne.
  - intros st' name' Hst' Hne. rewrite onChange_render in Hst'.
    destruct (parsedValue options args) as [value|]; [|done].
    cbn [mbind Completion_bind] in Hst'. injection Hst' as <-. simpl. split.
    + by rewrite get_insert_ne.
    + unfold UseForm.isTouched. case_decide; [|done]. by rewrite property_insert_ne.
Qed.

(** Focus untouches a field only under [unTouchOn = "focus"], and a change
    only under [unTouchOn = "change"]: under any other policy [onFocus] leaves
    the whole state as it is, and [onChange] leaves the touched map. *)
Theorem untouch_follows_the_policy
    (st : FormState) (name : string) (options : UseFieldOptions) (args : list JsArg) :
  (unTouchOn (render st) options ≠ UntouchFocus →
   onFocus (render st) name options st = st) ∧
  (∀ st', onChange (render st) name options args st = Normal st' →
     (unTouchOn (render st) options = UntouchChange →
      UseForm.isTouched (touchedFields st') name = false) ∧
     (unTouchOn (render st) options ≠ UntouchChange →
      touchedFields st' = touchedFields st)).
Proof.
  split.
  - intros Hpolicy. unfold onFocus. by case_decide.
  - intros st' Hst'. rewrite onChange_render in Hst'.
    destruct (parsedValue options args) as [value|]; [|done].
    cbn [mbind Completion_bind] in Hst'. injection Hst' as <-. simpl. split.
    + intros Hpolicy. case_decide; [|done].
      unfold UseForm.isTouched. by rewrite property_insert_eq.
    + intros Hpolicy. by case_decide.
Qed.

(** With the default [isEqual], an array is equal to the upstream array only
    when it is the same array: a change to another array with the same items
    makes the field dirty. *)
Theorem default_isEqual_compares_arrays_by_reference
    (st : FormState) (name : string) (options : UseFieldOptions) (args : list JsArg)
    (r r' : nat) (items items' : list JsVal) :
  options_isEqual options = None →
  parsedValue options args = Normal (VArr r items) →
  UseForm.getUpstreamValue upstreamData name = VArr r' items' →
  ∃ st',
    onChange (render st) name options args st = Normal st' ∧
    UseForm.isDiff (diff st') name = bool_decide (r ≠ r').
Proof.
  intros Hdefault Hparse Hup. rewrite onChange_render, Hparse.
  cbn [mbind Completion_bind]. eexists. split; [reflexivity|]. simpl.
  unfold UseForm.isDiff. rewrite get_insert_eq, Hup.
  unfold isEqual. rewrite Hdefault. simpl. unfold defaultIsEqual. simpl.
  destruct (Nat.eqb_spec r r') as [->|Hr].
  - by rewrite bool_decide_eq_false_2 by (intros H; by apply H).
  - by rewrite bool_decide_eq_true_2.
Qed.

End Handlers.

(** *** Bindings of a rendered form *)

Section Bindings.
Import Host UseField.

(** [useField] throws for every name outside the schema's shape, while it
    reads [isOptional].  For a name of the shape it returns unless formatting
    the message throws; when the context's [getError] finds an error or
    nothing, as its type says, [useField] returns exactly for the names of the
    shape.  When it returns, the input is [required] unless the field's schema
    is optional, and carries the field's name, effective value and validity. *)
Theorem useField_needs_a_schema_field
    (ctx : UseFieldCtx) (name : string) (options : UseFieldOptions) :
  (shape (schema ctx) !! name = None → returns (useField ctx name options) = false) ∧
  (is_Some (shape (schema ctx) !! name) →
   returns (useField ctx name options) = returns (errorMessage ctx name options)) ∧
  ((∀ member, getError ctx name ≠ Inherited member) →
   (returns (useField ctx name options) = true ↔ is_Some (shape (schema ctx) !! name))) ∧
  (∀ props t,
     useField ctx name options = Normal props →
     shape (schema ctx) !! name = Some t →
     input_required (field_inputProps props) = negb (isOptional t) ∧
     input_name (field_inputProps props) = name ∧
     input_value (field_inputProps props) = getValue ctx name ∧
     input_data_valid (field_inputProps props) = field_valid props ∧
     field_upstreamValue props = getUpstreamValue ctx name).
Proof.
  unfold useField, inputProps, property. split_and!.
  - intros Hnone. rewrite Hnone.
    by destruct (errorMessage ctx name options); case_bool_decide.
  - intros [t Ht]. rewrite Ht. by destruct (errorMessage ctx name options).
  - intros Htyped.
    assert (Hmsg : returns (errorMessage ctx name options) = true).
    { unfold errorMessage, error. destruct (getError ctx name) as [err|member|] eqn:Herr.
      - by case_match.
      - by destruct (Htyped member).
      - done. }
    destruct (errorMessage ctx name options) as [msg|]; [|done].
    destruct (shape (schema ctx) !! name) as [t|]; simpl.
    + split; [by eexists|done].
    + split; [by case_bool_decide|]. by intros [? ?].
  - intros props t Hprops Ht. rewrite Ht in Hprops.
    destruct (errorMessage ctx name options) as [msg|]; [|done].
    simpl in Hprops. injection Hprops as <-. by simpl.
Qed.

(** The [disabled] flag that a binding returns beside [inputProps] is the
    static option alone: when only [disabledIf] disables the input,
    [inputProps.disabled] is true and the binding's [disabled] is false. *)
Theorem disabled_flag_ignores_disabledIf
    (ctx : UseFieldCtx) (name : string) (options : UseFieldOptions)
    (props : FieldProps) (disabledIf : JsObj → bool) :
  useField ctx name options = Normal props →
  options_disabled options = None →
  options_disabledIf options = Some disabledIf →
  disabledIf (formValues ctx) = true →
  input_disabled (field_inputProps props) = true ∧ field_disabled props = false.
Proof.
  unfold useField, inputProps, property. intros Hprops Hstatic Hif Hholds.
  destruct (errorMessage ctx name options) as [msg|]; [|done].
  destruct (shape (schema ctx) !! name) as [t|]; [|by case_bool_decide].
  simpl in Hprops. injection Hprops as <-. simpl.
  unfold inputProps_disabled, disabled. by rewrite Hstatic, Hif.
Qed.

(** Under [showValidationOn = "touched"] the error of an untouched field is
    not shown; [onBlur] makes the same error show, formatted by the form's
    formatter, which without [config.formatErrorMessage] gives the message of
    the error's first issue, or the error's own message when it has none. *)
Theorem blur_reveals_the_error
    (schema : ZodObject) (upstreamData : JsObj) (config : UseForm.Config)
    (fe : gmap string ZodError) (st : FormState)
    (name : string) (options : UseFieldOptions) (err : ZodError) :
  fe !! name = Some err →
  showValidationOn (render schema upstreamData config fe st) options = ShowTouched →
  UseForm.isTouched (touchedFields st) name = false →
  errorMessage (render schema upstreamData config fe st) name options = Normal None ∧
  errorMessage
    (render schema upstreamData config fe
       (onBlur (render schema upstreamData config fe st) name st)) name options
    = Normal (Some (UseForm.formatErrorMessage config err name)) ∧
  (config_formatErrorMessage config = None →
   UseForm.formatErrorMessage config err name =
   match errors err with
   | i :: _ => issue_message i
   | [] => message err
   end).
Proof.
  intros Herr Hshow Huntouched.
  assert (Hshow' : default (UseForm.defaultShowValidationOn config)
                     (options_showValidationOn options) = ShowTouched) by exact Hshow.
  split_and!.
  - unfold errorMessage, error, touched, showValidationOn, render. simpl.
    unfold UseForm.getError. by rewrite (property_own _ _ _ Herr), Hshow', Huntouched.
  - unfold errorMessage, error, touched, showValidationOn, onBlur, render. simpl.
    unfold UseForm.getError, UseForm.isTouched.
    rewrite (property_own _ _ _ Herr), Hshow'. simpl.
    by rewrite property_insert_eq.
  - intros Hnone. unfold UseForm.formatErrorMessage. by rewrite Hnone.
Qed.

(** The sibling [useForm] renders, and on a form without a field called
    [__proto__] the binding of a schema field whose name no plain object
    inherits reflects the engine: the value is the effective value, the field
    is valid exactly when the field's schema accepts that value, the error of
    a rejected value is shown unless validation waits for a touch that has not
    happened, and [inputProps.disabled] is the static option. *)
Theorem sibling_binding_reflects_the_engine
    (schema : ZodObject) (upstreamData : JsObj) (config : UseFormRcf.Config)
    (st : FormState) (name : string) (options : UseFieldRcf.UseFieldOptions) (t : ZodType) :
  shape schema !! name = Some t →
  name ∉ Object_prototype →
  shape schema !! "__proto__" = None →
  ∃ r props,
    UseFormRcf.useForm schema upstreamData config st = Normal r ∧
    UseFieldRcf.useField (UseFormRcf.return_ctx r) name options = Normal props ∧
    input_value (field_inputProps props) = UseFormRcf.getValue (diff st) upstreamData name ∧
    field_valid props = success (safeParse t (UseFormRcf.getValue (diff st) upstreamData name)) ∧
    field_dirty props = UseFormRcf.isDiff (diff st) name ∧
    field_touched props = UseFormRcf.isTouched (touchedFields st) name ∧
    input_disabled (field_inputProps props) = default false (UseFieldRcf.options_disabled options) ∧
    input_required (field_inputProps props) = negb (isOptional t) ∧
    field_errorMessage props =
      match safeParse t (UseFormRcf.getValue (diff st) upstreamData name) with
      | ParseSuccess _ => None
      | ParseFailure e =>
          if bool_decide (default (UseFormRcf.defaultShowValidationOn config)
                            (UseFieldRcf.options_showValidationOn options) = ShowTouched)
             && negb (UseFormRcf.isTouched (touchedFields st) name)
          then None
          else Some (UseFormRcf.formatErrorMessage config e)
      end.
Proof.
  intros Ht Hname _. unfold UseFormRcf.useForm.
  destruct (fieldErrors_returns schema (diff st) upstreamData) as (fe & -> & Hfe).
  cbn [mbind Completion_bind].
  assert (Herror : UseFormRcf.getError fe name =
                   match safeParse t (UseFormRcf.getValue (diff st) upstreamData name) with
                   | ParseSuccess _ => Absent
                   | ParseFailure e => Own e
                   end).
  { unfold UseFormRcf.getError. rewrite (property_ordinary _ _ Hname), Hfe, Ht.
    by destruct (safeParse t _). }
  destruct (safeParse t (UseFormRcf.getValue (diff st) upstreamData name)) as [v|e].
  - eexists _, _. split; [reflexivity|].
    unfold UseFieldRcf.useField, UseFieldRcf.inputProps, UseFieldRcf.errorMessage,
      UseFieldRcf.valid, UseFieldRcf.error.
    simpl. rewrite Herror, (property_own _ _ _ Ht). simpl. split; [reflexivity|]. by simpl.
  - destruct (bool_decide (default (UseFormRcf.defaultShowValidationOn config)
                             (UseFieldRcf.options_showValidationOn options) = ShowTouched)
              && negb (UseFormRcf.isTouched (touchedFields st) name)) eqn:Hgate;
      (eexists _, _; split; [reflexivity|];
       unfold UseFieldRcf.useField, UseFieldRcf.inputProps, UseFieldRcf.errorMessage,
         UseFieldRcf.valid, UseFieldRcf.error, UseFieldRcf.showValidationOn,
         UseFieldRcf.touched;
       simpl; rewrite Herror, (property_own _ _ _ Ht), Hgate; simpl;
       split; [reflexivity|]; by simpl).
Qed.

(** After [touchAll()] the sibling shows the error of every schema field
    whose effective value its schema rejects, whatever the binding's
    [showValidationOn]. *)
Theorem touchAll_reveals_every_error
    (schema : ZodObject) (upstreamData : JsObj) (config : UseFormRcf.Config)
    (st : FormState) (name : string) (options : UseFieldRcf.UseFieldOptions)
    (t : ZodType) (e : ZodError) :
  shape schema !! name = Some t →
  safeParse t (UseFormRcf.getValue (diff st) upstreamData name) = ParseFailure e →
  ∃ r props,
    UseFormRcf.useForm schema upstreamData config (UseFormRcf.touchAll schema st) = Normal r ∧
    UseFieldRcf.useField (UseFormRcf.return_ctx r) name options = Normal props ∧
    field_touched props = true ∧
    field_errorMessage props = Some (UseFormRcf.formatErrorMessage config e).
Proof.
  intros Ht Hfail. unfold UseFormRcf.useForm.
  change (diff (UseFormRcf.touchAll schema st)) with (diff st).
  destruct (fieldErrors_returns schema (diff st) upstreamData) as (fe & -> & Hfe).
  cbn [mbind Completion_bind].
  assert (Herror : UseFormRcf.getError fe name = Own e).
  { apply property_own. by rewrite Hfe, Ht, Hfail. }
  pose proof (isTouched_touchAll_sibling schema st name) as Hall.
  rewrite (bool_decide_eq_true_2 (is_Some (shape schema !! name))) in Hall by by eexists.
  rewrite orb_true_l in Hall.
  eexists _, _. split; [reflexivity|].
  unfold UseFieldRcf.useField, UseFieldRcf.inputProps, UseFieldRcf.errorMessage,
    UseFieldRcf.error, UseFieldRcf.touched.
  cbn [UseFormRcf.return_ctx UseFormRcf.ctx UseFormRcf.ctx_getError UseFormRcf.ctx_isTouched
       UseFormRcf.ctx_schema].
  rewrite Herror, (property_own _ _ _ Ht), Hall, andb_false_r. simpl.
  split; [reflexivity|]. split; reflexivity.
Qed.

(** The handlers of the two versions of [useField] do the same to the state
    of the form, for the same options and the same default policy. *)
Theorem sibling_handlers_agree
    (schema : ZodObject) (upstreamData : JsObj)
    (config : UseForm.Config) (config' : UseFormRcf.Config)
    (fe fe' : gmap string ZodError) (st0 st : FormState)
    (name : string) (options : UseFieldOptions) (args : list JsArg) :
  config_defaultUntouchOn config' = config_defaultUntouchOn config →
  UseFieldRcf.onChange (UseFormRcf.ctx schema upstreamData config' st0 fe') name
    (siblingOptions options) args st
    = onChange (render schema upstreamData config fe st0) name options args st ∧
  UseFieldRcf.onFocus (UseFormRcf.ctx schema upstreamData config' st0 fe') name
    (siblingOptions options) st
    = onFocus (render schema upstreamData config fe st0) name options st ∧
  UseFieldRcf.onBlur (UseFormRcf.ctx schema upstreamData config' st0 fe') name st
    = onBlur (render schema upstreamData config fe st0) name st.
Proof.
  intros Hpolicy.
  assert (Hun : UseFieldRcf.unTouchOn (UseFormRcf.ctx schema upstreamData config' st0 fe')
                  (siblingOptions options)
                = unTouchOn (render schema upstreamData config fe st0) options).
  { unfold UseFieldRcf.unTouchOn, unTouchOn. simpl.
    unfold UseFormRcf.defaultUntouchOn, UseForm.defaultUntouchOn. by rewrite Hpolicy. }
  split_and!.
  - unfold UseFieldRcf.onChange, onChange. rewrite Hun.
    change (UseFieldRcf.parsedValue (siblingOptions options) args)
      with (parsedValue options args).
    destruct (parsedValue options args) as [value|]; [|done]. done.
  - unfold UseFieldRcf.onFocus, onFocus. by rewrite Hun.
  - done.
Qed.

(** The current [useForm] renders exactly the schema without fields; the
    form it gives is not dirty and its record of values is empty. *)
Theorem useForm_renders_only_the_empty_schema
    (schema : ZodObject) (upstreamData : JsObj) (config : UseForm.Config) (st : FormState) :
  (returns (UseForm.useForm schema upstreamData config st) = true ↔ shape schema = ∅) ∧
  (shape schema = ∅ →
   ∃ r, UseForm.useForm schema upstreamData config st = Normal r ∧
        UseForm.return_formDirty r = false ∧
        formValues (UseForm.return_ctx r) = ∅).
Proof.
  assert (Hempty : shape schema = ∅ →
    ∃ r, UseForm.useForm schema upstreamData config st = Normal r ∧
         UseForm.return_formDirty r = false ∧
         formValues (UseForm.return_ctx r) = ∅).
  { intros Hshape. unfold UseForm.useForm, UseForm.fieldErrors, UseForm.formDirty,
      UseForm.ctx, UseForm.formValues, UseForm.fieldKeys, Object_keys.
    rewrite Hshape, map_to_list_empty. simpl. by eexists. }
  split; [|exact Hempty]. split.
  - intros Hreturns.
    destruct (Object_keys (shape schema)) as [|key keys] eqn:Hkeys.
    + by apply Object_keys_nil.
    + assert (Hin : key ∈ Object_keys (shape schema)) by (rewrite Hkeys; by left).
      apply elem_of_Object_keys in Hin as [t Ht].
      unfold UseForm.useForm, UseForm.fieldErrors, UseForm.fieldKeys in Hreturns.
      rewrite Hkeys in Hreturns. simpl in Hreturns. by rewrite Ht in Hreturns.
  - intros Hshape. by destruct (Hempty Hshape) as (r & -> & _).
Qed.

End Bindings.

(** *** Names that no plain object inherits, and the config's equalities *)

Section Ordinary.
Import Host UseField.

(** On a form none of whose fields is called like a member of
    [Object.prototype], [reset()] gives every field of the schema its upstream
    value as effective value and leaves no field and not the form dirty.  Both
    versions. *)
Theorem reset_reverts_fields_with_ordinary_names
    (schema : ZodObject) (upstreamData : JsObj) (st : FormState) :
  (∀ f, is_Some (shape schema !! f) → f ∉ Object_prototype) →
  (∀ f, is_Some (shape schema !! f) →
        UseFormRcf.getValue (diff (UseFormRcf.reset st)) upstreamData f
          = UseFormRcf.getUpstreamValue upstreamData f ∧
        UseForm.getValue (UseForm.formValues schema (diff (UseForm.reset st)) upstreamData) f
          = UseForm.getUpstreamValue upstreamData f ∧
        UseForm.isDiff (diff (UseForm.reset st)) f = false) ∧
  UseForm.formDirty schema (diff (UseForm.reset st)) = false ∧
  UseFormRcf.formDirty schema (diff (UseFormRcf.reset st)) = false.
Proof.
  intros Hordinary.
  change (diff (UseFormRcf.reset st)) with (∅ : JsObj).
  change (diff (UseForm.reset st)) with (∅ : JsObj).
  assert (Hclean : ∀ f, is_Some (shape schema !! f) → UseForm.isDiff ∅ f = false).
  { intros f Hf. unfold UseForm.isDiff. by rewrite get_empty_ordinary by by apply Hordinary. }
  split_and!.
  - intros f Hf. split_and!.
    + rewrite getValue_overlay, get_empty_ordinary by by apply Hordinary. done.
    + rewrite formValues_lookup, bool_decide_eq_true_2 by by apply elem_of_Object_keys.
      by rewrite get_empty_ordinary by by apply Hordinary.
    + by apply Hclean.
  - unfold UseForm.formDirty. rewrite filter_eq_nil; [done|].
    intros f Hf%elem_of_Object_keys. by rewrite Hclean.
  - unfold UseFormRcf.formDirty, UseFormRcf.dirtyFieldsArray. rewrite filter_eq_nil; [done|].
    intros f Hf%elem_of_Object_keys.
    change (UseFormRcf.isDiff ∅ f) with (UseForm.isDiff ∅ f). by rewrite Hclean.
Qed.

(** The equalities that [config.isEqual] registers for the fields are read
    nowhere: [onChange] does the same with and without them, and stores a
    value that differs from the upstream value by [===] although the equality
    registered for the field takes the two for equal. *)
Theorem config_isEqual_is_not_consulted
    (schema : ZodObject) (upstreamData : JsObj) (config : UseForm.Config)
    (fe : gmap string ZodError) (st : FormState)
    (name : string) (options : UseFieldOptions) (args : list JsArg)
    (registered : gmap string (JsVal → JsVal → bool)) :
  onChange (render schema upstreamData (registerIsEqual registered config) fe st)
    name options args st
    = onChange (render schema upstreamData config fe st) name options args st ∧
  (∀ value registeredIsEqual,
     registered !! name = Some registeredIsEqual →
     registeredIsEqual value (UseForm.getUpstreamValue upstreamData name) = true →
     options_isEqual options = None →
     parsedValue options args = Normal value →
     strict_eq value (UseForm.getUpstreamValue upstreamData name) = false →
     ∃ st',
       onChange (render schema upstreamData (registerIsEqual registered config) fe st)
         name options args st = Normal st' ∧
       diff st' = <[name := value]> (diff st)).
Proof.
  unfold render. split.
  - by rewrite !onChange_state.
  - intros value registeredIsEqual _ _ Hoption Hparse Hne.
    rewrite onChange_state, Hparse. cbn [mbind Completion_bind].
    unfold isEqual. rewrite Hoption. simpl. unfold defaultIsEqual. rewrite Hne.
    by eexists.
Qed.

End Ordinary.

(** *** The properties at work on the user form *)

Section UserForm.
Import Host UseField.

Local Abbreviation userRender := (render userSchema userData no_config ∅).

Lemma formDirty_iff_a_schema_field_is_dirty_witness :
  UseForm.formDirty userSchema emptyNameDiff = true ∧
  UseFormRcf.formDirty userSchema emptyNameDiff = true.
Proof.
  destruct (formDirty_iff_a_schema_field_is_dirty userSchema emptyNameDiff)
    as [[_ Hcurrent] [_ Hsibling]].
  split; [apply Hcurrent|apply Hsibling]; exists "firstName";
    (split; [vm_compute; eexists; reflexivity|vm_compute; reflexivity]).
Defined.


Lemma edit_then_revert_is_not_dirty_witness :
  ∃ st1 st2,
    onChange (userRender userState) "firstName" valueOptions [ArgValue (VStr "Jane")] userState
      = Normal st1 ∧
    onChange (userRender st1) "firstName" valueOptions [ArgValue (VStr "John")] st1
      = Normal st2 ∧
    UseForm.isDiff (diff st2) "firstName" = false ∧
    (∀ f, f ≠ "firstName" → UseForm.isDiff (diff st2) f = UseForm.isDiff (diff userState) f) ∧
    UseForm.formDirty userSchema (diff st2) = false.
Proof.
  apply (edit_then_revert_is_not_dirty userSchema userData no_config ∅ userState
           "firstName" valueOptions [ArgValue (VStr "Jane")] [ArgValue (VStr "John")]
           (VStr "Jane") (VStr "John")).
  - reflexivity.
  - reflexivity.
  - vm_compute; reflexivity.
  - vm_compute; reflexivity.
Defined.

Lemma onChange_without_parseValue_needs_an_event_witness :
  returns (onChange (userRender userState) "firstName" no_options
             [ArgEvent (VStr "Jane")] userState) = true ∧
  returns (onChange (userRender userState) "firstName" no_options
             [ArgValue (VStr "Jane")] userState) = false ∧
  returns (onChange (userRender userState) "firstName" no_options [] userState) = false.
Proof.
  split_and!.
  - exact (proj1 (onChange_without_parseValue_needs_an_event userSchema userData no_config ∅
                    userState "firstName" no_options [ArgEvent (VStr "Jane")] eq_refl)).
  - exact (proj1 (onChange_without_parseValue_needs_an_event userSchema userData no_config ∅
                    userState "firstName" no_options [ArgValue (VStr "Jane")] eq_refl)).
  - exact (proj1 (onChange_without_parseValue_needs_an_event userSchema userData no_config ∅
                    userState "firstName" no_options [] eq_refl)).
Defined.

Lemma handlers_leave_other_fields_witness :
  ∃ st',
    onChange (userRender emptiedState) "nickname" changeOptions
      [ArgEvent (VStr "Johnny")] emptiedState = Normal st' ∧
    get (diff st') "firstName" = VStr "" ∧
    UseForm.isTouched (touchedFields st') "firstName" = false.
Proof.
  eexists. split; [reflexivity|].
  destruct (handlers_leave_other_fields userSchema userData no_config ∅ emptiedState
              "nickname" changeOptions [ArgEvent (VStr "Johnny")])
    as (_ & _ & _ & Hchange).
  destruct (Hchange _ "firstName" eq_refl) as [Hdiff Htouched]; [discriminate|].
  split.
  - refine (eq_trans Hdiff _). vm_compute; reflexivity.
  - refine (eq_trans Htouched _). vm_compute; reflexivity.
Defined.

Lemma untouch_follows_the_policy_witness :
  onFocus (userRender userState) "firstName" changeOptions userState = userState ∧
  ∃ st',
    onChange (userRender userState) "firstName" changeOptions
      [ArgEvent (VStr "Jane")] userState = Normal st' ∧
    UseForm.isTouched (touchedFields st') "firstName" = false.
Proof.
  destruct (untouch_follows_the_policy userSchema userData no_config ∅ userState
              "firstName" changeOptions [ArgEvent (VStr "Jane")])
    as [Hfocus Hchange].
  split.
  - apply Hfocus. discriminate.
  - eexists. split; [reflexivity|].
    destruct (Hchange _ eq_refl) as [Hun _]. apply Hun. reflexivity.
Defined.

Lemma default_isEqual_compares_arrays_by_reference_witness :
  ∃ st',
    onChange (render userSchema permissionsData no_config ∅ userState) "permissions"
      valueOptions [ArgValue readWriteCopy] userState = Normal st' ∧
    UseForm.isDiff (diff st') "permissions" = bool_decide (2 ≠ 1).
Proof.
  apply (default_isEqual_compares_arrays_by_reference userSchema permissionsData no_config ∅
           userState "permissions" valueOptions [ArgValue readWriteCopy]
           2 1 [VStr "Read"; VStr "Write"] [VStr "Read"; VStr "Write"]).
  - reflexivity.
  - reflexivity.
  - vm_compute; reflexivity.
Defined.

Lemma useField_needs_a_schema_field_witness :
  returns (useField (userRender userState) "firstName" no_options) = true ∧
  returns (useField (userRender userState) "lastName" no_options) = false.
Proof.
  destruct (useField_needs_a_schema_field (userRender userState) "firstName" no_options)
    as (_ & _ & Htyped & _).
  destruct (useField_needs_a_schema_field (userRender userState) "lastName" no_options)
    as (Houtside & _).
  split.
  - apply Htyped.
    + intros member Hmember. vm_compute in Hmember. discriminate Hmember.
    + vm_compute. eexists. reflexivity.
  - apply Houtside. vm_compute; reflexivity.
Defined.

Lemma disabled_flag_ignores_disabledIf_witness :
  ∃ props,
    useField (userRender userState) "firstName" lockedOptions = Normal props ∧
    input_disabled (field_inputProps props) = true ∧ field_disabled props = false.
Proof.
  assert (Hmessage : errorMessage (userRender userState) "firstName" lockedOptions
                     = Normal None) by (vm_compute; reflexivity).
  assert (Htype : shape (schema (userRender userState)) !! "firstName"
                  = Some (z_string_min1 "First name is required"))
    by (vm_compute; reflexivity).
  pose proof (useField_returns _ _ _ _ _ Hmessage Htype) as Huse.
  eexists. split; [exact Huse|].
  apply (disabled_flag_ignores_disabledIf (userRender userState) "firstName" lockedOptions
           _ (λ formState, is_defined (get formState "nickname")) Huse).
  - reflexivity.
  - reflexivity.
  - vm_compute; reflexivity.
Defined.

Lemma blur_reveals_the_error_witness :
  errorMessage (render userSchema userData no_config userErrors emptiedState)
    "firstName" no_options = Normal None ∧
  errorMessage
    (render userSchema userData no_config userErrors
       (onBlur (render userSchema userData no_config userErrors emptiedState)
          "firstName" emptiedState)) "firstName" no_options
    = Normal (Some "First name is required").
Proof.
  destruct (blur_reveals_the_error userSchema userData no_config userErrors emptiedState
              "firstName" no_options requiredError)
    as (Hhidden & Hshown & Hformat).
  - vm_compute; reflexivity.
  - reflexivity.
  - vm_compute; reflexivity.
  - split; [exact Hhidden|]. rewrite Hshown, Hformat; reflexivity.
Defined.

Lemma sibling_binding_reflects_the_engine_witness :
  ∃ r props,
    UseFormRcf.useForm userSchema userData no_config emptiedState = Normal r ∧
    UseFieldRcf.useField (UseFormRcf.return_ctx r) "firstName" UseFieldRcf.no_options
      = Normal props ∧
    input_value (field_inputProps props) = VStr "" ∧
    field_valid props = false ∧
    field_dirty props = true ∧
    field_errorMessage props = None.
Proof.
  destruct (sibling_binding_reflects_the_engine userSchema userData no_config emptiedState
              "firstName" UseFieldRcf.no_options (z_string_min1 "First name is required"))
    as (r & props & Hr & Hprops & Hvalue & Hvalid & Hdirty & _ & _ & _ & Hmsg).
  - vm_compute; reflexivity.
  - intros Hin. vm_compute in Hin. by repeat (apply elem_of_cons in Hin as [[=]|Hin]);
      apply elem_of_nil in Hin.
  - vm_compute; reflexivity.
  - exists r, props. split_and!; [exact Hr|exact Hprops| | | |].
    + rewrite Hvalue. vm_compute; reflexivity.
    + rewrite Hvalid. vm_compute; reflexivity.
    + rewrite Hdirty. vm_compute; reflexivity.
    + rewrite Hmsg. vm_compute; reflexivity.
Defined.

Lemma touchAll_reveals_every_error_witness :
  ∃ r props,
    UseFormRcf.useForm userSchema userData no_config
      (UseFormRcf.touchAll userSchema emptiedState) = Normal r ∧
    UseFieldRcf.useField (UseFormRcf.return_ctx r) "firstName" UseFieldRcf.no_options
      = Normal props ∧
    field_touched props = true ∧
    field_errorMessage props = Some (UseFormRcf.formatErrorMessage no_config requiredError).
Proof.
  apply (touchAll_reveals_every_error userSchema userData no_config emptiedState
           "firstName" UseFieldRcf.no_options (z_string_min1 "First name is required")
           requiredError).
  - vm_compute; reflexivity.
  - vm_compute; reflexivity.
Defined.

Lemma sibling_handlers_agree_witness :
  UseFieldRcf.onChange (UseFormRcf.ctx userSchema userData no_config userState ∅) "firstName"
    (siblingOptions valueOptions) [ArgValue (VStr "Jane")] userState
    = onChange (userRender userState) "firstName" valueOptions
        [ArgValue (VStr "Jane")] userState ∧
  UseFieldRcf.onFocus (UseFormRcf.ctx userSchema userData no_config userState ∅) "firstName"
    (siblingOptions valueOptions) userState
    = onFocus (userRender userState) "firstName" valueOptions userState ∧
  UseFieldRcf.onBlur (UseFormRcf.ctx userSchema userData no_config userState ∅) "firstName"
    userState
    = onBlur (userRender userState) "firstName" userState.
Proof.
  exact (sibling_handlers_agree userSchema userData no_config no_config ∅ ∅ userState
           userState "firstName" valueOptions [ArgValue (VStr "Jane")] eq_refl).
Defined.

Lemma useForm_renders_only_the_empty_schema_witness :
  returns (UseForm.useForm (z_object ∅ Strip) userData no_config userState) = true ∧
  ∃ r, UseForm.useForm (z_object ∅ Strip) userData no_config userState = Normal r ∧
       UseForm.return_formDirty r = false ∧
       formValues (UseForm.return_ctx r) = ∅.
Proof.
  destruct (useForm_renders_only_the_empty_schema (z_object ∅ Strip) userData no_config
              userState) as [Hiff Hempty].
  split; [apply Hiff; reflexivity|apply Hempty; reflexivity].
Defined.

Lemma initialState_touched_witness :
  UseForm.isTouched (touchedFields (UseForm.initialState userSchema touchedConfig)) "firstName"
    = true ∧
  UseForm.isTouched (touchedFields (UseForm.initialState userSchema no_config)) "firstName"
    = false ∧
  UseForm.isTouched (touchedFields (UseForm.initialState userSchema no_config)) "constructor"
    = true.
Proof.
  assert (Hshape : shape userSchema !! "__proto__" = None) by (vm_compute; reflexivity).
  split_and!.
  - refine (eq_trans (proj1 (initialState_touched userSchema touchedConfig no_config
                               "firstName" Hshape)) _).
    vm_compute; reflexivity.
  - refine (eq_trans (proj1 (initialState_touched userSchema no_config no_config
                               "firstName" Hshape)) _).
    vm_compute; reflexivity.
  - refine (eq_trans (proj1 (initialState_touched userSchema no_config no_config
                               "constructor" Hshape)) _).
    vm_compute; reflexivity.
Defined.

Lemma resetTouched_restores_the_initTouched_of_its_render_witness :
  touchedFields (UseForm.resetTouched userSchema touchedConfig userState)
    = UseForm.initTouched userSchema touchedConfig ∧
  UseForm.isTouched (touchedFields (UseForm.resetTouched userSchema no_config emptiedState))
    "firstName"
    = UseForm.isTouched (touchedFields (UseForm.initialState userSchema no_config)) "firstName".
Proof.
  assert (Hshape : shape userSchema !! "__proto__" = None) by (vm_compute; reflexivity).
  split.
  - exact (proj1 (resetTouched_restores_the_initTouched_of_its_render userSchema no_config
                    touchedConfig userState Hshape)).
  - destruct (resetTouched_restores_the_initTouched_of_its_render userSchema no_config
                no_config emptiedState Hshape) as (_ & _ & Hiff).
    apply Hiff. reflexivity.
Defined.

Lemma reset_reverts_fields_with_ordinary_names_witness :
  UseFormRcf.getValue (diff (UseFormRcf.reset emptiedState)) userData "firstName" = VStr "John" ∧
  UseForm.formDirty userSchema (diff (UseForm.reset emptiedState)) = false ∧
  UseFormRcf.formDirty userSchema (diff (UseFormRcf.reset emptiedState)) = false.
Proof.
  destruct (reset_reverts_fields_with_ordinary_names userSchema userData emptiedState)
    as (Hvalues & Hcurrent & Hsibling).
  - intros f Hf Hin.
    assert (Hnone : shape userSchema !! f = None).
    { vm_compute in Hin.
      repeat (apply elem_of_cons in Hin as [->|Hin]); try (vm_compute; reflexivity).
      apply elem_of_nil in Hin. destruct Hin. }
    rewrite Hnone in Hf. by destruct Hf.
  - split_and!; [|exact Hcurrent|exact Hsibling].
    refine (eq_trans (proj1 (Hvalues "firstName" _)) _).
    + vm_compute. eexists. reflexivity.
    + vm_compute; reflexivity.
Defined.

Lemma config_isEqual_is_not_consulted_witness :
  ∃ st',
    onChange (render userSchema permissionsData
                (registerIsEqual permissionsIsEqual no_config) ∅ userState)
      "permissions" valueOptions [ArgValue readWriteCopy] userState = Normal st' ∧
    diff st' = <["permissions" := readWriteCopy]> (diff userState).
Proof.
  destruct (config_isEqual_is_not_consulted userSchema permissionsData no_config ∅ userState
              "permissions" valueOptions [ArgValue readWriteCopy] permissionsIsEqual)
    as [_ Hstored].
  apply (Hstored readWriteCopy (λ _ _, true)).
  - vm_compute; reflexivity.
  - reflexivity.
  - reflexivity.
  - reflexivity.
  - vm_compute; reflexivity.
Defined.


Lemma bindField_throws_witness :
  bindField userSchema userData no_config userState "firstName" no_options =
  Throw (ReferenceError "Cannot access 'getValue' before initialization").
Proof.
  apply (bindField_throws userSchema userData no_config userState "firstName" no_options).
  intros Hempty.
  assert (H : shape userSchema !! "firstName" = None) by (rewrite Hempty; apply lookup_empty).
  vm_compute in H. discriminate H.
Defined.

End UserForm.
